(** * atlas-server-watch-discord-bot: command dispatch and watch loop

    A shallow embedding of [awsdb/utils.py] and [awsdb/commands.py], and the
    properties of the bot's specification stated over it.

    Conventions of the embedding.
    - A Python [str] is a [string].  ASCII text is represented character by
      character and other text by its UTF-8 bytes, so equality, [startswith],
      concatenation and the found/not-found answer of [find] agree with
      Python.  [upper], [strip], [isdecimal] and [int] are those of Python on
      ASCII text only: bytes above 127 are left alone by them, where Python
      knows the upper case, the white space and the decimal digits of all of
      Unicode.  [ascii_only] marks the text on which the two agree.
    - A Python [int] is a [Z].
    - The shared [ASWDConfig] object is threaded through every operation;
      what an operation does to the outside world (messages sent, the config
      file rewritten, sleeps, channels created) is returned as a list of
      events.  A message built with [str.format] from numbers or lists is
      kept as its template and arguments.
    - The calls into the outside world are taken to succeed: the Discord
      client delivers a message and does not raise, the log file and the
      config file can be opened, and [configparser] takes the values it is
      given, which it does for any text without a percent sign
      ([plain_config]).  The failures that are modelled are those of the game
      API: a request that raises, an empty or malformed body, a payload of
      the wrong shape.
    - What the Discord client and the game API answer during the watch loop
      is an input: one [CycleEnv] per iteration.
    - Console [print] calls are not modelled. *)

From Stdlib Require Import ZArith Ascii.
From stdpp Require Import base gmap strings list.

Local Open Scope Z_scope.

(** ** Python string primitives *)

Module Py.

Definition nl : string := String "010" EmptyString.
Definition dq : string := String "034" EmptyString.

(** [s.startswith(p)] *)
Definition startswith (s p : string) : bool := String.prefix p s.

(** [len(s)] *)
Definition len (s : string) : Z := Z.of_nat (String.length s).

Definition is_lower (c : ascii) : bool :=
  (97 <=? nat_of_ascii c)%nat && (nat_of_ascii c <=? 122)%nat.

Definition upper_char (c : ascii) : ascii :=
  if is_lower c then ascii_of_nat (nat_of_ascii c - 32) else c.

(** [s.upper()] *)
Fixpoint upper (s : string) : string :=
  match s with
  | EmptyString => EmptyString
  | String c s' => String (upper_char c) (upper s')
  end.

(** The ASCII characters [str.strip()] treats as white space. *)
Definition is_space (c : ascii) : bool :=
  let n := nat_of_ascii c in
  ((9 <=? n)%nat && (n <=? 13)%nat) || ((28 <=? n)%nat && (n <=? 32)%nat).

Fixpoint lstrip (s : string) : string :=
  match s with
  | EmptyString => EmptyString
  | String c s' => if is_space c then lstrip s' else s
  end.

Fixpoint rstrip (s : string) : string :=
  match s with
  | EmptyString => EmptyString
  | String c s' =>
      match rstrip s' with
      | EmptyString => if is_space c then EmptyString else String c EmptyString
      | r => String c r
      end
  end.

(** [s.strip()] *)
Definition strip (s : string) : string := rstrip (lstrip s).

Fixpoint find_from (sub s : string) (i : Z) : Z :=
  if String.prefix sub s then i
  else match s with
       | EmptyString => -1
       | String _ s' => find_from sub s' (i + 1)
       end.

(** [s.find(sub)]: the lowest index at which [sub] occurs, or [-1]. *)
Definition find (s sub : string) : Z := find_from sub s 0.

Definition is_digit (c : ascii) : bool :=
  (48 <=? nat_of_ascii c)%nat && (nat_of_ascii c <=? 57)%nat.

Fixpoint all_digits (s : string) : bool :=
  match s with
  | EmptyString => true
  | String c s' => is_digit c && all_digits s'
  end.

(** [s.isdecimal()] *)
Definition isdecimal (s : string) : bool :=
  match s with
  | EmptyString => false
  | _ => all_digits s
  end.

Definition digit_value (c : ascii) : Z := Z.of_nat (nat_of_ascii c) - 48.

(** The digits of an integer literal: decimal digits, with single
    underscores allowed between two digits. *)
Fixpoint int_digits (s : string) (acc : Z) (after_digit : bool) : option Z :=
  match s with
  | EmptyString => if after_digit then Some acc else None
  | String c s' =>
      if is_digit c then int_digits s' (acc * 10 + digit_value c) true
      else if Ascii.eqb c "_" then
        (if after_digit then int_digits s' acc false else None)
      else None
  end.

(** The characters [int()] skips around the literal in an ASCII string:
    those of C's [isspace], which the separators 28 to 31 are not, although
    [str.strip()] removes them. *)
Definition is_int_space (c : ascii) : bool :=
  let n := nat_of_ascii c in
  ((9 <=? n)%nat && (n <=? 13)%nat) || (n =? 32)%nat.

Fixpoint int_lstrip (s : string) : string :=
  match s with
  | EmptyString => EmptyString
  | String c s' => if is_int_space c then int_lstrip s' else s
  end.

Fixpoint int_rstrip (s : string) : string :=
  match s with
  | EmptyString => EmptyString
  | String c s' =>
      match int_rstrip s' with
      | EmptyString => if is_int_space c then EmptyString else String c EmptyString
      | r => String c r
      end
  end.

(** [int(s)] for ASCII text; [None] stands for the [ValueError] it raises. *)
Definition int (s : string) : option Z :=
  match int_rstrip (int_lstrip s) with
  | String "+" r => int_digits r 0 false
  | String "-" r => Z.opp <$> int_digits r 0 false
  | t => int_digits t 0 false
  end.

(** [s.split(" ")] *)
Fixpoint split_space (s : string) : list string :=
  match s with
  | EmptyString => [EmptyString]
  | String c s' =>
      if Ascii.eqb c " " then EmptyString :: split_space s'
      else match split_space s' with
           | h :: t => String c h :: t
           | [] => [String c EmptyString]
           end
  end.

(** [sep.join(l)] *)
Fixpoint join (sep : string) (l : list string) : string :=
  match l with
  | [] => EmptyString
  | [x] => x
  | x :: l' => x +:+ sep +:+ join sep l'
  end.

(** ["{}({})".format(a, b)] for two strings. *)
Definition format_paren (a b : string) : string := a +:+ "(" +:+ b +:+ ")".

(** Values handed to [str.format] in messages that are kept unformatted. *)
Inductive value :=
| VStr (s : string)
| VInt (z : Z)
| VNone
| VList (l : list string).

Definition of_option_int (o : option Z) : value :=
  match o with Some z => VInt z | None => VNone end.

Definition of_option_str (o : option string) : value :=
  match o with Some s => VStr s | None => VNone end.

(** A message text: a string, or [template.format(args)] left unevaluated. *)
Inductive text :=
| Lit (s : string)
| Format (template : string) (args : list value).

Inductive exn := ValueError | TypeError | JSONDecodeError.

End Py.

(** ** Discord objects and API payloads *)

(** A channel of a Discord server; [ch_is_text] is
    [channel.type == ChannelType.text]. *)
Record Channel := { ch_id : Z; ch_name : string; ch_is_text : bool }.

(** A Discord server (guild) with the channels it has. *)
Record Server := { sv_id : Z; sv_channels : list Channel }.

(** [client.servers] *)
Definition Client := list Server.

Record Message := { content : string; channel : Channel; server : Server }.

(** What [requests.get(url).text] followed by [jsons.loads] can give. *)
Inductive response (A : Type) :=
| ReqFailed                 (* requests.get raised *)
| BodyEmpty                 (* the body is the empty string *)
| BodyMalformed             (* jsons.loads rejects the body *)
| BodyJson (a : A).
Arguments ReqFailed {A}.
Arguments BodyEmpty {A}.
Arguments BodyMalformed {A}.
Arguments BodyJson {A} a.

(** One object of the cluster payload: its ["id"] and ["player_count"]
    (a JSON number or null). *)
Record ClusterServer := { cs_id : Z; cs_player_count : option Z }.

(** The player payload: an array of objects, each with a ["name"], or a JSON
    object, of which only the keys matter. *)
Inductive Players :=
| PlayerArray (names : list string)
| PlayerObject (keys : list string).

(** The entry of [servers_info] for one server. *)
Record ServerInfo := {
  si_server_name : string;
  si_player_count : option Z;
  si_player_sbn_count : Z;
  si_enemy_players : list string
}.

(** ** The config object *)

Record ASWDConfig := {
  token : string;
  watch_world : Z;
  watch_interval : Z;
  player_sbn_count : Z;
  enemy_list : list (string * string);   (* dict, in insertion order *)
  is_watch_started : bool;
  last_servers_info : gmap string ServerInfo;
  enemy_notice_server_names : list string
}.

(** What [ASWDConfig.write] puts into the config file. *)
Record Persisted := {
  p_token : string;
  p_watch_world : Z;
  p_watch_interval : Z;
  p_player_sbn_count : Z;
  p_enemy_list : list (string * string)
}.

Inductive event :=
| EvSend (ch : Channel) (msg : Py.text)
| EvWrite (p : Persisted)
| EvSleep (seconds : Z)
| EvLogTraceback
| EvCreateChannel (sv : Server) (name : string)
| EvDeleteChannel (arg : bool).

(** ** Running code against the config: state, events, exceptions *)

(** [Pending]: the loop was still running when the recorded environment
    ended. *)
Inductive outcome (A : Type) :=
| Return (a : A)
| Raise (e : Py.exn)
| Pending.
Arguments Return {A} a.
Arguments Raise {A} e.
Arguments Pending {A}.

Record result (A : Type) := Result {
  res_out : outcome A;
  res_cfg : ASWDConfig;
  res_events : list event
}.
Arguments Result {A} _ _ _.
Arguments res_out {A} _.
Arguments res_cfg {A} _.
Arguments res_events {A} _.

Definition M (A : Type) : Type := ASWDConfig -> result A.

Definition ret {A} (a : A) : M A := fun c => Result (Return a) c [].

Definition raise {A} (e : Py.exn) : M A := fun c => Result (Raise e) c [].

Definition bind {A B} (m : M A) (k : A -> M B) : M B := fun c =>
  let r := m c in
  match res_out r with
  | Return a =>
      let r' := k a (res_cfg r) in
      Result (res_out r') (res_cfg r') (res_events r ++ res_events r')
  | Raise e => Result (Raise e) (res_cfg r) (res_events r)
  | Pending => Result Pending (res_cfg r) (res_events r)
  end.

(** [try: m  except Exception: handler] *)
Definition try_except {A} (m : M A) (handler : M A) : M A := fun c =>
  let r := m c in
  match res_out r with
  | Raise _ =>
      let r' := handler (res_cfg r) in
      Result (res_out r') (res_cfg r') (res_events r ++ res_events r')
  | _ => r
  end.

Definition gets {A} (f : ASWDConfig -> A) : M A := fun c => Result (Return (f c)) c [].

Definition modify (f : ASWDConfig -> ASWDConfig) : M unit := fun c => Result (Return tt) (f c) [].

Definition emit (e : event) : M unit := fun c => Result (Return tt) c [e].

Declare Scope bot_scope.
Delimit Scope bot_scope with bot.
Notation "x <- m ;; k" := (bind m (fun x => k))
  (at level 100, m at next level, right associativity) : bot_scope.
Notation "m ;; k" := (bind m (fun _ => k))
  (at level 100, right associativity) : bot_scope.
Local Open Scope bot_scope.

(** [await client.send_message(channel, msg)], taken to deliver the message:
    an exception of the client is not modelled. *)
Definition send_message (ch : Channel) (msg : Py.text) : M unit := emit (EvSend ch msg).

(** [await asyncio.sleep(n)] *)
Definition sleep (n : Z) : M unit := emit (EvSleep n).

(** ** awsdb/utils.py: ASWDConfig *)

Definition persisted (c : ASWDConfig) : Persisted :=
  {| p_token := token c; p_watch_world := watch_world c;
     p_watch_interval := watch_interval c;
     p_player_sbn_count := player_sbn_count c;
     p_enemy_list := enemy_list c |}.

(** [ASWDConfig.write], taken to succeed.  It does when the file can be
    opened and [configparser] takes the token and the dumped enemy list,
    which it refuses ([ValueError]) when a percent sign stands alone in
    them. *)
Definition write : M unit := fun c => Result (Return tt) c [EvWrite (persisted c)].

Definition with_watch_world (v : Z) (c : ASWDConfig) : ASWDConfig :=
  {| token := token c; watch_world := v; watch_interval := watch_interval c;
     player_sbn_count := player_sbn_count c; enemy_list := enemy_list c;
     is_watch_started := is_watch_started c;
     last_servers_info := last_servers_info c;
     enemy_notice_server_names := enemy_notice_server_names c |}.

Definition with_watch_interval (v : Z) (c : ASWDConfig) : ASWDConfig :=
  {| token := token c; watch_world := watch_world c; watch_interval := v;
     player_sbn_count := player_sbn_count c; enemy_list := enemy_list c;
     is_watch_started := is_watch_started c;
     last_servers_info := last_servers_info c;
     enemy_notice_server_names := enemy_notice_server_names c |}.

Definition with_player_sbn_count (v : Z) (c : ASWDConfig) : ASWDConfig :=
  {| token := token c; watch_world := watch_world c;
     watch_interval := watch_interval c;
     player_sbn_count := v; enemy_list := enemy_list c;
     is_watch_started := is_watch_started c;
     last_servers_info := last_servers_info c;
     enemy_notice_server_names := enemy_notice_server_names c |}.

Definition with_enemy_list (v : list (string * string)) (c : ASWDConfig) : ASWDConfig :=
  {| token := token c; watch_world := watch_world c;
     watch_interval := watch_interval c;
     player_sbn_count := player_sbn_count c; enemy_list := v;
     is_watch_started := is_watch_started c;
     last_servers_info := last_servers_info c;
     enemy_notice_server_names := enemy_notice_server_names c |}.

Definition with_is_watch_started (v : bool) (c : ASWDConfig) : ASWDConfig :=
  {| token := token c; watch_world := watch_world c;
     watch_interval := watch_interval c;
     player_sbn_count := player_sbn_count c; enemy_list := enemy_list c;
     is_watch_started := v;
     last_servers_info := last_servers_info c;
     enemy_notice_server_names := enemy_notice_server_names c |}.

Definition with_last_servers_info (v : gmap string ServerInfo) (c : ASWDConfig) : ASWDConfig :=
  {| token := token c; watch_world := watch_world c;
     watch_interval := watch_interval c;
     player_sbn_count := player_sbn_count c; enemy_list := enemy_list c;
     is_watch_started := is_watch_started c;
     last_servers_info := v;
     enemy_notice_server_names := enemy_notice_server_names c |}.

Definition with_enemy_notice_server_names (v : list string) (c : ASWDConfig) : ASWDConfig :=
  {| token := token c; watch_world := watch_world c;
     watch_interval := watch_interval c;
     player_sbn_count := player_sbn_count c; enemy_list := enemy_list c;
     is_watch_started := is_watch_started c;
     last_servers_info := last_servers_info c;
     enemy_notice_server_names := v |}.

(** The three setters that persist. *)
Definition set_watch_world (v : Z) : M unit :=
  modify (with_watch_world v) ;; write.

Definition set_watch_interval (v : Z) : M unit :=
  modify (with_watch_interval v) ;; write.

Definition set_player_sbn_count (v : Z) : M unit :=
  modify (with_player_sbn_count (if 3 <=? v then v else 3)) ;; write.

(** The enemy list is a [dict]: keys are unique and kept in insertion
    order. *)
Definition dict_keys (d : list (string * string)) : list string := d.*1.


(** [k in d], which is also what the loops
    [for enemy in d: if enemy == k: ...] of [add_enemy] and [del_enemy]
    decide. *)
Fixpoint dict_mem (k : string) (d : list (string * string)) : bool :=
  match d with
  | [] => false
  | (k', _) :: d' => if String.eqb k' k then true else dict_mem k d'
  end.

(** [d[k] = v] *)
Fixpoint dict_set (k v : string) (d : list (string * string)) : list (string * string) :=
  match d with
  | [] => [(k, v)]
  | (k', v') :: d' =>
      if String.eqb k' k then (k', v) :: d' else (k', v') :: dict_set k v d'
  end.

(** [d.pop(k)] for a key that is present. *)
Fixpoint dict_pop (k : string) (d : list (string * string)) : list (string * string) :=
  match d with
  | [] => []
  | (k', v') :: d' =>
      if String.eqb k' k then d' else (k', v') :: dict_pop k d'
  end.

Definition add_enemy (name company : string) : M bool :=
  enemies <- gets enemy_list ;;
  if dict_mem name enemies then ret false
  else
    modify (with_enemy_list
              (dict_set name (match company with
                              | EmptyString => EmptyString
                              | _ => Py.strip company
                              end) enemies)) ;;
    write ;;
    ret true.

Definition del_enemy (name : string) : M bool :=
  enemies <- gets enemy_list ;;
  if dict_mem name enemies then
    modify (with_enemy_list (dict_pop name enemies)) ;;
    write ;;
    ret true
  else ret false.

(** The list [ret] that [list_enemy] joins. *)
Definition list_enemy_items (c : ASWDConfig) : list string :=
  map (fun kv => Py.format_paren kv.1 kv.2) (enemy_list c).

Definition list_enemy (c : ASWDConfig) : string :=
  Py.join ", " (list_enemy_items c).

(** ** awsdb/consts.py

    The module is not part of the sources at hand; its two tables are taken
    as parameters of everything below. *)
Record Consts := {
  SERVER_NAMES : list (string * Z);   (* the "name" and "id" of each entry *)
  CLUSTERS : list (Z * string)        (* the "id" and "name" of each entry *)
}.

Section Bot.

Context (consts : Consts).

(** ** awsdb/utils.py: Utils *)

Definition exists_server_name (server_name : string) : bool :=
  existsb (fun x => String.eqb x.1 server_name) (SERVER_NAMES consts).

Definition get_channels (client : Client) : list Channel :=
  flat_map (fun sv =>
    List.filter (fun ch => ch_is_text ch && exists_server_name (Py.upper (ch_name ch)))
                (sv_channels sv)) client.

(** [list(set(ret))] is rendered as the names without repetition, in the
    order they were met. *)
Definition get_watch_server_names (client : Client) : list string :=
  remove_dups (map (fun ch => Py.upper (ch_name ch)) (get_channels client)).

Definition exists_channel (sv : Server) (channel_name : string) : bool :=
  existsb (fun ch => String.eqb (Py.upper (ch_name ch)) (Py.upper channel_name))
          (sv_channels sv).

(** [Utils.get_object("id", key, items)] on the cluster payload. *)
Definition get_object_id (key : Z) (items : list ClusterServer) : option ClusterServer :=
  List.find (fun x => cs_id x =? key) items.

(** [Utils.get_value("id", key, "name", consts.CLUSTERS)] *)
Definition get_cluster_name (key : Z) : option string :=
  snd <$> List.find (fun x => x.1 =? key) (CLUSTERS consts).

Definition get_server_id (cluster_id : Z) (server_name : string) : M Z :=
  if (cluster_id <? 1) || (4 <? cluster_id) then raise Py.ValueError
  else match List.find (fun x => String.eqb x.1 server_name) (SERVER_NAMES consts) with
       | None => raise Py.ValueError
       | Some sv => ret ((cluster_id - 1) * 225 + sv.2)
       end.

(** ** awsdb/commands.py: the watch loop of StartCommand *)

(** What the outside world answers during one iteration of the loop. *)
Record CycleEnv := {
  env_client : Client;
  env_cluster : response (list ClusterServer);
  env_players : Z -> response Players;
  env_timestr : string;
  env_stop : bool   (* a /stop was handled while the iteration was suspended *)
}.

Definition msg_cluster_empty := Py.Lit "【エラー】サーバ情報jsonが空. 再度実行.".
Definition msg_cluster_failed := Py.Lit "【エラー】サーバ情報取得失敗. サーバダウンかも. 再度実行.".
Definition msg_players_empty := Py.Lit "【エラー】プレイヤー情報jsonが空. 再度実行.".
Definition msg_players_failed := Py.Lit "【エラー】プレイヤー情報取得失敗. サーバダウンかも. 再度実行.".
Definition msg_continuing := Py.Lit "【エラー】処理続行. 複数回発生したら/stopして.".

Definition msg_data_error (timestr name : string) :=
  Py.Format "{}　{}　データ取得エラー." [Py.VStr timestr; Py.VStr name].

Definition msg_status (timestr : string) (si : ServerInfo) :=
  Py.Format "{}　{}　人数:{}　敵:{}人 {}"
    [Py.VStr timestr; Py.VStr (si_server_name si);
     Py.of_option_int (si_player_count si);
     Py.VInt (Z.of_nat (length (si_enemy_players si)));
     Py.VList (si_enemy_players si)].

Definition surge_template : string := "@everyone サーバが {}人増えて {}人に急増. 敵襲か？".
Definition intrusion_template : string := "@everyone ブラックリストの {} がやってきたぞ.".
Definition all_clear_text : string := "ブラックリストのやつらはどこかへ行ったようだ.".

Definition msg_surge (si : ServerInfo) :=
  Py.Format surge_template
    [Py.VInt (si_player_sbn_count si); Py.of_option_int (si_player_count si)].

Definition msg_intrusion (si : ServerInfo) :=
  Py.Format intrusion_template [Py.VStr (Py.join ", " (si_enemy_players si))].

Definition msg_all_clear := Py.Lit all_clear_text.

(** [player_count - last_player_count]; a null [player_count] raises. *)
Definition py_sub (a : option Z) (b : Z) : M Z :=
  match a with
  | Some x => ret (x - b)
  | None => raise Py.TypeError
  end.

(** Lines 358-364: the surge of a server against the previous snapshot. *)
Definition compute_player_sbn_count (server_name : string) (player_count : option Z) : M Z :=
  last <- gets last_servers_info ;;
  let last_server_info :=
    if negb (size last =? 0)%nat && bool_decide (is_Some (last !! server_name))
    then last !! server_name else None in
  match last_server_info with
  | None => ret 0
  | Some lsi =>
      match si_player_count lsi with
      | Some last_player_count =>
          if 0 <? last_player_count then py_sub player_count last_player_count
          else ret (-1)
      | None => ret (-1)
      end
  end.

Definition is_empty_string (s : string) : bool :=
  match s with EmptyString => true | _ => false end.

(** The test of line 372, negated: the player is reported for [enemy]. *)
Definition player_matches (enemy player_name : string) : bool :=
  negb (is_empty_string player_name
        || (Py.find (Py.upper player_name) (Py.upper enemy) =? -1)).

Definition list_mem (x : string) (l : list string) : bool :=
  existsb (String.eqb x) l.

(** Lines 365-374.  Indexing a key of a JSON object by ["name"] raises. *)
Definition find_enemy_players (players : Players) : M (list string) :=
  enemies <- gets enemy_list ;;
  match players with
  | PlayerArray names =>
      match names with
      | [] => ret []
      | _ =>
          ret (flat_map (fun kv =>
                 map (fun player => Py.format_paren player kv.2)
                     (List.filter (player_matches kv.1) names)) enemies)
      end
  | PlayerObject keys =>
      match keys with
      | [] => ret []
      | _ =>
          if list_mem "data" keys then ret []
          else match enemies with
               | [] => ret []
               | _ => raise Py.TypeError
               end
      end
  end.

(** Lines 328-381: the loop over the watched servers, filling
    [servers_info].  The [continue] after a failed or empty player fetch
    stands inside this [for] loop: it goes on with the next server. *)
Fixpoint collect_servers_info (e : CycleEnv) (message : Message)
    (cluster : list ClusterServer) (names : list string)
    (servers_info : gmap string ServerInfo) : M (gmap string ServerInfo) :=
  match names with
  | [] => ret servers_info
  | server_name :: rest =>
      world <- gets watch_world ;;
      server_id <- get_server_id world server_name ;;
      match get_object_id server_id cluster with
      | None => collect_servers_info e message cluster rest servers_info
      | Some cluster_server_info =>
          let player_count := cs_player_count cluster_server_info in
          match env_players e server_id with
          | ReqFailed =>
              emit EvLogTraceback ;;
              send_message (channel message) msg_players_failed ;;
              interval <- gets watch_interval ;;
              sleep interval ;;
              collect_servers_info e message cluster rest servers_info
          | BodyEmpty =>
              send_message (channel message) msg_players_empty ;;
              interval <- gets watch_interval ;;
              sleep interval ;;
              collect_servers_info e message cluster rest servers_info
          | BodyMalformed => raise Py.JSONDecodeError
          | BodyJson players =>
              sbn <- compute_player_sbn_count server_name player_count ;;
              enemy_players <- find_enemy_players players ;;
              collect_servers_info e message cluster rest
                (<[server_name :=
                     {| si_server_name := server_name;
                        si_player_count := player_count;
                        si_player_sbn_count := sbn;
                        si_enemy_players := enemy_players |}]> servers_info)
          end
      end
  end.

(** [l.remove(x)]: the first occurrence goes. *)
Fixpoint list_remove (x : string) (l : list string) : list string :=
  match l with
  | [] => []
  | y :: l' => if String.eqb x y then l' else y :: list_remove x l'
  end.

(** Lines 389-423: what one reporting channel is sent.  The guard
    [server_info is None] cannot hold for an entry of [servers_info] and is
    left out. *)
Definition notify_channel (timestr : string) (servers_info : gmap string ServerInfo)
    (tgt_channel : Channel) : M unit :=
  match servers_info !! Py.upper (ch_name tgt_channel) with
  | None =>
      send_message tgt_channel (msg_data_error timestr (Py.upper (ch_name tgt_channel)))
  | Some si =>
      send_message tgt_channel (msg_status timestr si) ;;
      threshold <- gets player_sbn_count ;;
      (if threshold <=? si_player_sbn_count si
       then send_message tgt_channel (msg_surge si) else ret tt) ;;
      (if (0 <? length (si_enemy_players si))%nat then
         noticed <- gets enemy_notice_server_names ;;
         if negb (list_mem (si_server_name si) noticed) then
           send_message tgt_channel (msg_intrusion si) ;;
           modify (fun c => with_enemy_notice_server_names
                              (enemy_notice_server_names c ++ [si_server_name si]) c)
         else ret tt
       else ret tt) ;;
      noticed <- gets enemy_notice_server_names ;;
      if (length (si_enemy_players si) =? 0)%nat && list_mem (si_server_name si) noticed then
        send_message tgt_channel msg_all_clear ;;
        modify (fun c => with_enemy_notice_server_names
                           (list_remove (si_server_name si) (enemy_notice_server_names c)) c)
      else ret tt
  end.

Fixpoint notify_channels (timestr : string) (servers_info : gmap string ServerInfo)
    (tgt_channels : list Channel) : M unit :=
  match tgt_channels with
  | [] => ret tt
  | tgt_channel :: rest =>
      notify_channel timestr servers_info tgt_channel ;;
      notify_channels timestr servers_info rest
  end.

(** The body of the [try] of one iteration.  [false] is the [continue] after
    a failed cluster fetch, which has slept already. *)
Definition watch_body (e : CycleEnv) (message : Message) : M bool :=
  let watch_server_names := get_watch_server_names (env_client e) in
  match env_cluster e with
  | ReqFailed =>
      emit EvLogTraceback ;;
      send_message (channel message) msg_cluster_failed ;;
      interval <- gets watch_interval ;;
      sleep interval ;;
      ret false
  | BodyEmpty =>
      send_message (channel message) msg_cluster_empty ;;
      interval <- gets watch_interval ;;
      sleep interval ;;
      ret false
  | BodyMalformed => raise Py.JSONDecodeError
  | BodyJson cluster =>
      servers_info <- collect_servers_info e message cluster watch_server_names ∅ ;;
      notify_channels (env_timestr e) servers_info (get_channels (env_client e)) ;;
      modify (with_last_servers_info servers_info) ;;
      ret true
  end.

(** One iteration of [while self.config.is_watch_started]. *)
Definition watch_iteration (e : CycleEnv) (message : Message) : M unit :=
  completed <- try_except (watch_body e message)
                 (emit EvLogTraceback ;;
                  send_message (channel message) msg_continuing ;;
                  ret true) ;;
  (if completed : bool then interval <- gets watch_interval ;; sleep interval else ret tt) ;;
  if env_stop e then modify (with_is_watch_started false) else ret tt.

Definition pending {A} : M A := fun c => Result Pending c [].

Fixpoint watch_loop (envs : list CycleEnv) (message : Message) : M bool :=
  started <- gets is_watch_started ;;
  if started : bool then
    match envs with
    | [] => pending
    | e :: envs' => watch_iteration e message ;; watch_loop envs' message
    end
  else ret true.

(** ** awsdb/commands.py: Command *)

(** A command object: the constructor arguments [cmd] and [has_args] and the
    three methods a subclass supplies. *)
Record Command := {
  cmd : string;
  has_args : bool;
  usage : string;
  valid_custom : Message -> string -> M (option string);
  execute_cmd : Message -> string -> M bool
}.

Definition is_call (c : Command) (msg : string) : bool :=
  Py.startswith msg (cmd c).

Definition is_cmd_help (c : Command) (msg : string) : bool :=
  String.eqb (cmd c +:+ " /?") msg.

Definition is_valid (c : Command) (message : Message) : bool :=
  if has_args c then
    Py.startswith (content message) (cmd c +:+ " ")
    && (Py.len (cmd c) + 1 <? Py.len (content message))
  else String.eqb (content message) (cmd c).

(** [Command.valid_custom], which subclasses without a check inherit. *)
Definition valid_custom_default (message : Message) (args : string) : M (option string) :=
  ret None.

(** [s[n:]] *)
Fixpoint slice_from (n : nat) (s : string) : string :=
  match n, s with
  | O, _ => s
  | S n', String _ s' => slice_from n' s'
  | S _, EmptyString => EmptyString
  end.

Definition msg_invalid : string := "コマンドが正しくありません.".

(** [Command.execute].  The guard [not message and not message.content] is
    false for every message object and is left out.  The result is [False]
    on the three early exits and [None] after the body has run. *)
Definition execute (c : Command) (message : Message) : M (option bool) :=
  if is_cmd_help c (content message) then
    send_message (channel message) (Py.Lit (usage c)) ;;
    ret (Some false)
  else if negb (is_valid c message) then
    send_message (channel message) (Py.Lit (msg_invalid +:+ Py.nl +:+ usage c)) ;;
    ret (Some false)
  else
    let args := slice_from (String.length (cmd c) + 1) (content message) in
    valid_msg <- valid_custom c message args ;;
    match valid_msg with
    | Some (String a m) =>
        send_message (channel message) (Py.Lit (String a m +:+ Py.nl +:+ usage c)) ;;
        ret (Some false)
    | _ =>
        execute_cmd c message args ;;
        ret None
    end.

(** [int(args)] inside a command. *)
Definition py_int (args : string) : M Z :=
  match Py.int args with
  | Some v => ret v
  | None => raise Py.ValueError
  end.

(** *** /start and /stop *)

Definition StartCommand (envs : list CycleEnv) : Command :=
  {| cmd := "/start";
     has_args := false;
     usage := "`/start`" +:+ Py.nl +:+ "サーバの監視を開始します."
              +:+ Py.nl +:+ "指定時間ごとにサーバやプレイヤー情報を取得して各報告用チャンネルに出力し、"
              +:+ "プレイヤーが急増した場合や敵プレイヤーが監視サーバに侵入した場合に通知します.";
     valid_custom := fun message args =>
       started <- gets is_watch_started ;;
       if started : bool then ret (Some "監視継続します.") else ret None;
     execute_cmd := fun message args =>
       send_message (channel message) (Py.Lit "監視開始.") ;;
       modify (with_is_watch_started true) ;;
       modify (with_last_servers_info ∅) ;;
       modify (with_enemy_notice_server_names []) ;;
       watch_loop envs message |}.

Definition StopCommand : Command :=
  {| cmd := "/stop";
     has_args := false;
     usage := "`/stop`" +:+ Py.nl +:+ "サーバの監視を終了します.";
     valid_custom := valid_custom_default;
     execute_cmd := fun message args =>
       modify (with_is_watch_started false) ;;
       send_message (channel message) (Py.Lit "監視終了.") ;;
       ret true |}.

(** *** /add enemy, /del enemy, /list enemy and their aliases *)

(** The loop of [split_args] over the characters of an argument string that
    contains a double quote. *)
Fixpoint split_quoted (s : string) (acc : list string) (arg : string) (in_dq : bool)
    : list string :=
  match s with
  | EmptyString => if is_empty_string arg then acc else acc ++ [Py.strip arg]
  | String ch s' =>
      if Ascii.eqb ch " " && negb in_dq then
        split_quoted s' (acc ++ [Py.strip arg]) EmptyString in_dq
      else if Ascii.eqb ch "034" then split_quoted s' acc arg (negb in_dq)
      else split_quoted s' acc (arg +:+ String ch EmptyString) in_dq
  end.

(** [AddEnemyCommand.split_args]; the result [None] is the [return None] of
    the branch without quotes. *)
Definition split_args (args : string) : option (list string) :=
  if 0 <=? Py.find args Py.dq then Some (split_quoted args [] EmptyString false)
  else
    match Py.split_space args with
    | [] => None
    | l => Some l
    end.

Definition msg_bad_player_name : string := "プレイヤー名を正しく入力してください.".
Definition msg_no_such_enemy : string := "敵プレイヤーは存在しません.".

Definition add_enemy_valid_custom (message : Message) (args : string) : M (option string) :=
  if is_empty_string args then ret (Some msg_bad_player_name) else ret None.

Definition add_enemy_execute_cmd (message : Message) (args : string) : M bool :=
  match split_args args with
  | None => raise Py.TypeError   (* len(None) *)
  | Some arg_list =>
      let pname := match arg_list with p :: _ => p | [] => EmptyString end in
      let cname := match arg_list with _ :: c :: _ => c | _ => EmptyString end in
      add_enemy pname cname ;;
      send_message (channel message) (Py.Lit "敵プレイヤーに追加しました.") ;;
      ret true
  end.

Definition AddEnemyCommand : Command :=
  {| cmd := "/add enemy";
     has_args := true;
     usage := "`/add enemy [プレイヤー名] [カンパニー名]`"
              +:+ Py.nl +:+ "敵プレイヤーを追加します."
              +:+ Py.nl +:+ "追加した敵プレイヤーは監視中のサーバに現れた場合、通知します."
              +:+ Py.nl +:+ "カンパニー名は省略可能です."
              +:+ Py.nl +:+ "名前やカンパニー名に空白が存在する場合、ダブルクォートで囲んでください.(例: /add enemy "
              +:+ Py.dq +:+ "player name" +:+ Py.dq +:+ " " +:+ Py.dq +:+ "company name" +:+ Py.dq +:+ ")"
              +:+ Py.nl +:+ "敵プレイヤー名は大文字小文字問わずあいまい検索で判定します.(例: Bcd を追加した場合、abcde というプレイヤーに一致します.)";
     valid_custom := add_enemy_valid_custom;
     execute_cmd := add_enemy_execute_cmd |}.

Definition AddBlackListCommand : Command :=
  {| cmd := "/add bl";
     has_args := true;
     usage := "`/add bl [プレイヤー名] [カンパニー名]`"
              +:+ Py.nl +:+ "敵プレイヤーを追加します."
              +:+ Py.nl +:+ "/add enemy と同様の処理を行います.";
     valid_custom := add_enemy_valid_custom;
     execute_cmd := add_enemy_execute_cmd |}.

Definition del_enemy_valid_custom (message : Message) (args : string) : M (option string) :=
  if is_empty_string args then ret (Some msg_bad_player_name)
  else
    enemies <- gets enemy_list ;;
    if negb (dict_mem args enemies) then ret (Some msg_no_such_enemy) else ret None.

Definition del_enemy_execute_cmd (message : Message) (args : string) : M bool :=
  del_enemy args ;;
  send_message (channel message) (Py.Lit "敵プレイヤーを削除しました.") ;;
  ret true.

Definition DelEnemyCommand : Command :=
  {| cmd := "/del enemy";
     has_args := true;
     usage := "`/del enemy [プレイヤー名] [カンパニー名]`"
              +:+ Py.nl +:+ "敵プレイヤーを削除します.";
     valid_custom := del_enemy_valid_custom;
     execute_cmd := del_enemy_execute_cmd |}.

Definition DelBlackListCommand : Command :=
  {| cmd := "/del bl";
     has_args := true;
     usage := "`/del bl [プレイヤー名] [カンパニー名]`"
              +:+ Py.nl +:+ "敵プレイヤーを削除します."
              +:+ Py.nl +:+ "/del enemy と同様の処理を行います.";
     valid_custom := del_enemy_valid_custom;
     execute_cmd := del_enemy_execute_cmd |}.

Definition list_enemy_execute_cmd (message : Message) (args : string) : M bool :=
  listing <- gets list_enemy ;;
  send_message (channel message) (Py.Format "敵プレイヤー: {}" [Py.VStr listing]) ;;
  ret true.

Definition ListEnemyCommand : Command :=
  {| cmd := "/list enemy";
     has_args := false;
     usage := "`/list enemy`" +:+ Py.nl +:+ "敵プレイヤーの一覧を表示します.";
     valid_custom := valid_custom_default;
     execute_cmd := list_enemy_execute_cmd |}.

Definition ListBlackListCommand : Command :=
  {| cmd := "/list bl";
     has_args := false;
     usage := "`/list bl`" +:+ Py.nl +:+ "敵プレイヤーの一覧を表示します."
              +:+ Py.nl +:+ "/list enemy と同様の処理を行います.";
     valid_custom := valid_custom_default;
     execute_cmd := list_enemy_execute_cmd |}.

(** *** /add server and /del server *)

Definition msg_bad_server_name : string := "サーバー名にA1～O15を設定してください.".

Definition AddServerCommand : Command :=
  {| cmd := "/add server";
     has_args := true;
     usage := "`/add server [サーバー名(A1-O15)]`"
              +:+ Py.nl +:+ "監視対象とするサーバを追加します."
              +:+ Py.nl +:+ "追加するとDiscordにサーバー監視報告用のチャンネルを作成します.";
     valid_custom := fun message args =>
       if is_empty_string args || negb (exists_server_name (Py.upper args))
       then ret (Some msg_bad_server_name)
       else if exists_channel (server message) args
       then ret (Some "対象サーバは既に監視対象です.")
       else ret None;
     execute_cmd := fun message args =>
       emit (EvCreateChannel (server message) (Py.upper args)) ;;
       send_message (channel message)
         (Py.Format "{}チャンネル追加. 監視情報はそこに出力します." [Py.VStr (Py.upper args)]) ;;
       ret true |}.

(** The body hands the boolean answer of [Utils.exists_channel] to
    [client.delete_channel]. *)
Definition DelServerCommand : Command :=
  {| cmd := "/del server";
     has_args := true;
     usage := "`/del server　[サーバー名(A1-O15)]`"
              +:+ Py.nl +:+ "監視対象とするサーバを削除します."
              +:+ Py.nl +:+ "削除するとDiscordにサーバー監視報告用のチャンネルもあわせて削除します.";
     valid_custom := fun message args =>
       if is_empty_string args || negb (Py.len args =? 2)
          || negb (exists_server_name (Py.upper args))
       then ret (Some msg_bad_server_name)
       else if negb (exists_channel (server message) args)
       then ret (Some "対象サーバは監視対象ではありません.")
       else ret None;
     execute_cmd := fun message args =>
       emit (EvDeleteChannel (exists_channel (server message) args)) ;;
       send_message (channel message)
         (Py.Format "{}チャンネル削除." [Py.VStr (Py.upper args)]) ;;
       ret true |}.

(** *** /status *)

Definition StatusCommand : Command :=
  {| cmd := "/status";
     has_args := false;
     usage := "`/status`" +:+ Py.nl +:+ "各設定値や監視状態など現在の状態を表示します.";
     valid_custom := valid_custom_default;
     execute_cmd := fun message args =>
       c <- gets id ;;
       send_message (channel message)
         (Py.Format
            ("監視状態:{}" +:+ Py.nl +:+ "監視ワールド:{} {}" +:+ Py.nl +:+ "監視間隔(秒):{}"
             +:+ Py.nl +:+ "通知対象プレイヤー増加数:{}" +:+ Py.nl +:+ "敵プレイヤー:{}"
             +:+ Py.nl +:+ "敵侵入中サーバ:{}")
            [Py.VStr (if is_watch_started c then "監視中" else "監視していません");
             Py.VInt (watch_world c);
             Py.of_option_str (get_cluster_name (watch_world c));
             Py.VInt (watch_interval c);
             Py.VInt (player_sbn_count c);
             Py.VStr (list_enemy c);
             Py.VList (enemy_notice_server_names c)]) ;;
       ret true |}.

(** *** /set world, /set interval, /set player_count *)

Definition msg_world_range : string := "1から4の数字を設定してください.".
Definition msg_interval_number : string := "監視間隔に数値を設定してください.".
Definition msg_player_count_number : string := "プレイヤー増加数を数値で設定してください.".

Definition SetWatchWorldCommand : Command :=
  {| cmd := "/set world";
     has_args := true;
     usage := "`/set world　[1-4]`"
              +:+ Py.nl +:+ "監視ワールドを設定します."
              +:+ Py.nl +:+ "設定は数字で入力してください"
              +:+ Py.nl +:+ "(1: NA PvE, 2: NA PvP, 3: EU PvE, 4: EU PvP)";
     valid_custom := fun message args =>
       if is_empty_string args || negb (Py.isdecimal args) then ret (Some msg_world_range)
       else
         int_val <- py_int args ;;
         if (int_val <? 1) || (4 <? int_val) then ret (Some msg_world_range)
         else ret None;
     execute_cmd := fun message args =>
       int_val <- py_int args ;;
       set_watch_world int_val ;;
       send_message (channel message)
         (Py.Format "監視ワールドを {} に設定しました."
                    [Py.of_option_str (get_cluster_name int_val)]) ;;
       ret true |}.

Definition SetWatchIntervalCommand : Command :=
  {| cmd := "/set interval";
     has_args := true;
     usage := "`/set interval [秒]`"
              +:+ Py.nl +:+ "監視間隔(秒)を設定します."
              +:+ Py.nl +:+ "指定された間隔ごとにサーバ情報やプレイヤー情報を取得し出力します.";
     valid_custom := fun message args =>
       if is_empty_string args || negb (Py.isdecimal args)
       then ret (Some msg_interval_number) else ret None;
     execute_cmd := fun message args =>
       int_val <- py_int args ;;
       int_val <- (if int_val <? 30 then
                     send_message (channel message)
                       (Py.Lit "指定した数値が30秒未満のため、30秒を設定します.") ;;
                     ret 30
                   else ret int_val) ;;
       set_watch_interval int_val ;;
       send_message (channel message)
         (Py.Format "監視間隔を{}秒に設定しました." [Py.VInt int_val]) ;;
       ret true |}.

Definition SetPlayerSbnCountCommand : Command :=
  {| cmd := "/set player_count";
     has_args := true;
     usage := "`/set player_count [人数]`"
              +:+ Py.nl +:+ "サーバのプレイヤーが一気に増加した場合に通知を行う際の閾値を設定します."
              +:+ Py.nl +:+ "前回と今回のサーバ人数を比較し、この設定値以上になった場合にサーバ監視報告チャンネルに通知します.";
     valid_custom := fun message args =>
       if is_empty_string args then ret (Some msg_player_count_number) else ret None;
     execute_cmd := fun message args =>
       int_val <- py_int args ;;
       int_val <- (if int_val <? 3 then
                     send_message (channel message)
                       (Py.Lit "指定した数値が3人未満のため、3人を設定します.") ;;
                     ret 3
                   else ret int_val) ;;
       set_player_sbn_count int_val ;;
       send_message (channel message)
         (Py.Format "通知対象プレイヤー増加数を{}人に設定しました." [Py.VInt int_val]) ;;
       ret true |}.

(** *** /fuck and /? *)

Definition FuckYeahCommand : Command :=
  {| cmd := "/fuck";
     has_args := true;
     usage := "`/fuck xxx`" +:+ Py.nl +:+ "Fuck YEAH !!";
     valid_custom := valid_custom_default;
     execute_cmd := fun message args =>
       send_message (channel message) (Py.Lit "Fuck YEAH !!") ;;
       send_message (channel message)
         (Py.Lit "https://clips.twitch.tv/PrettiestFaintUdonPoooound") ;;
       ret true |}.

Definition help_usage : string :=
  "`/?`" +:+ Py.nl +:+ "ヘルプを表示します."
  +:+ Py.nl +:+ "/start /? のように入力するとコマンドのヘルプを表示します.".

Definition HelpCommand (cmd_list : list Command) : Command :=
  {| cmd := "/?";
     has_args := false;
     usage := help_usage;
     valid_custom := valid_custom_default;
     execute_cmd := fun message args =>
       send_message (channel message)
         (Py.Lit (Py.join Py.nl
                    ((help_usage +:+ Py.nl)
                     :: map (fun c => usage c +:+ Py.nl) cmd_list))) ;;
       ret true |}.

(** ** awsdb/commands.py: CommandManager *)

(** The fifteen commands the constructor lists.  [envs] is what the outside
    world answers to the watch loop, should /start run it. *)
Definition base_cmd_list (envs : list CycleEnv) : list Command :=
  [ StartCommand envs; StopCommand; AddEnemyCommand; DelEnemyCommand;
    ListEnemyCommand; AddBlackListCommand; DelBlackListCommand;
    ListBlackListCommand; AddServerCommand; DelServerCommand; StatusCommand;
    SetWatchWorldCommand; SetWatchIntervalCommand; SetPlayerSbnCountCommand;
    FuckYeahCommand ].

Definition help_cmd (envs : list CycleEnv) : Command :=
  HelpCommand (base_cmd_list envs).

Definition cmd_list (envs : list CycleEnv) : list Command :=
  base_cmd_list envs ++ [help_cmd envs].

(** [CommandManager.execute] *)
Definition manager_execute (envs : list CycleEnv) (message : Message) : M (option bool) :=
  if negb (Py.startswith (content message) "/") then ret (Some false)
  else
    match List.find (fun c => is_call c (content message)) (cmd_list envs) with
    | None =>
        send_message (channel message)
          (Py.Lit (msg_invalid +:+ Py.nl +:+ usage (help_cmd envs))) ;;
        ret (Some false)
    | Some call_cmd => execute call_cmd message
    end.

End Bot.

Arguments String.append : simpl nomatch.

(** ** Sample data *)

Definition grid_letters : list string :=
  ["A"; "B"; "C"; "D"; "E"; "F"; "G"; "H"; "I"; "J"; "K"; "L"; "M"; "N"; "O"].

Definition grid_numbers : list string :=
  ["1"; "2"; "3"; "4"; "5"; "6"; "7"; "8"; "9"; "10"; "11"; "12"; "13"; "14"; "15"].

(** Modelled from the spec: [consts.SERVER_NAMES] and [consts.CLUSTERS] are
    missing from the sources.  The spec describes the first as a fixed
    225-entry table of the names made of a letter A-O and a number 1-15; the
    ids are taken to run from 1 in table order.  The second follows the
    usage text of /set world.  The general statements below hold for any
    tables; this one serves the concrete runs. *)
Definition grid_consts : Consts :=
  {| SERVER_NAMES :=
       concat (imap (fun i letter =>
                 imap (fun j number => (letter +:+ number, Z.of_nat (15 * i + j + 1)))
                      grid_numbers) grid_letters);
     CLUSTERS := [(1, "NA PvE"); (2, "NA PvP"); (3, "EU PvE"); (4, "EU PvP")] |}.

Definition cmd_channel : Channel :=
  {| ch_id := 1; ch_name := "bot"; ch_is_text := true |}.

Definition a1_channel : Channel :=
  {| ch_id := 2; ch_name := "a1"; ch_is_text := true |}.

Definition sample_server : Server :=
  {| sv_id := 1; sv_channels := [cmd_channel; a1_channel] |}.

Definition say (line : string) : Message :=
  {| content := line; channel := cmd_channel; server := sample_server |}.

(** A config as [ASWDConfig.__init__] leaves it, with an empty enemy list. *)
Definition fresh_config : ASWDConfig :=
  {| token := "token"; watch_world := 1; watch_interval := 60;
     player_sbn_count := 5; enemy_list := [];
     is_watch_started := false; last_servers_info := ∅;
     enemy_notice_server_names := [] |}.

(** ** Reading the event list *)

(** The three kinds of notification a reporting channel of server [s] can
    get, recognised by their text. *)
Definition is_surge_alert_for (s : string) (ev : event) : bool :=
  match ev with
  | EvSend ch (Py.Format template _) =>
      String.eqb template surge_template && String.eqb (Py.upper (ch_name ch)) s
  | _ => false
  end.

Definition is_intrusion_alert_for (s : string) (ev : event) : bool :=
  match ev with
  | EvSend ch (Py.Format template _) =>
      String.eqb template intrusion_template && String.eqb (Py.upper (ch_name ch)) s
  | _ => false
  end.

Definition is_all_clear_for (s : string) (ev : event) : bool :=
  match ev with
  | EvSend ch (Py.Lit t) =>
      String.eqb t all_clear_text && String.eqb (Py.upper (ch_name ch)) s
  | _ => false
  end.

Definition count_events (p : event -> bool) (events : list event) : nat :=
  length (List.filter p events).

(** How often [s] is on the notice list. *)
Definition occurrences (s : string) (l : list string) : nat :=
  length (List.filter (String.eqb s) l).

(** Two configs that differ at most in the notice list. *)
Definition same_settings (c c' : ASWDConfig) : Prop :=
  token c' = token c /\ watch_world c' = watch_world c
  /\ watch_interval c' = watch_interval c
  /\ player_sbn_count c' = player_sbn_count c
  /\ enemy_list c' = enemy_list c
  /\ is_watch_started c' = is_watch_started c
  /\ last_servers_info c' = last_servers_info c.

(** Events that are none of the three notifications, for any server. *)
Definition silent (events : list event) : Prop :=
  Forall (fun ev => forall s,
            is_surge_alert_for s ev = false
            /\ is_intrusion_alert_for s ev = false
            /\ is_all_clear_for s ev = false) events.

(** Some reporting channel in the list is the one of server [s]. *)
Definition has_channel (s : string) (channels : list Channel) : bool :=
  existsb (fun ch => String.eqb (Py.upper (ch_name ch)) s) channels.

(** A snapshot whose entries carry their key as [server_name]. *)
Definition keyed (m : gmap string ServerInfo) : Prop :=
  forall k v, m !! k = Some v -> si_server_name v = k.

(** The stop flag, as the end of an iteration leaves it. *)
Definition after_stop (e : CycleEnv) (c : ASWDConfig) : ASWDConfig :=
  if env_stop e then with_is_watch_started false c else c.

(** *** Sample cycles

    One Discord server with the command channel and the reporting channel
    of A1; the API knows server 1 (A1 in world 1) with seven players. *)
Definition sample_cycle (players : list string) : CycleEnv :=
  {| env_client := [sample_server];
     env_cluster := BodyJson [{| cs_id := 1; cs_player_count := Some 7 |}];
     env_players := fun _ => BodyJson (PlayerArray players);
     env_timestr := "11/04 12:00";
     env_stop := false |}.

(** A config that watches for one enemy. *)
Definition watching_config : ASWDConfig :=
  with_enemy_list [("Bcd", "Acme")] fresh_config.

Definition a1_info (sbn : Z) (enemy_players : list string) : ServerInfo :=
  {| si_server_name := "A1"; si_player_count := Some 7;
     si_player_sbn_count := sbn; si_enemy_players := enemy_players |}.

(** ** More of awsdb/utils.py

    [consts.CMD_CHANNEL_NAME], the name of the channel the bot takes its
    commands from, is a further constant of the missing [consts] module: a
    string, which [get_cmd_channels] compares channel names with.  The
    functions that read it take it as their first argument. *)

(** [a in b] for two strings. *)
Definition str_in (a b : string) : bool := negb (Py.find b a =? -1).

(** [Utils.find_channel] *)
Definition find_channel (sv : Server) (channel_name : string) : option Channel :=
  List.find (fun ch => String.eqb (Py.upper (ch_name ch)) channel_name)
            (sv_channels sv).

(** [Utils.get_cmd_channels]: of each server, the first text channel that
    carries the name. *)
Definition get_cmd_channels (cmd_channel_name : string) (client : Client) : list Channel :=
  flat_map (fun sv =>
    match List.find (fun ch => ch_is_text ch
                               && String.eqb (Py.upper (ch_name ch)) cmd_channel_name)
                    (sv_channels sv) with
    | Some ch => [ch]
    | None => []
    end) client.

(** [Utils.get_none_cmd_channel_servers]; the test is
    [channel.name.upper() not in consts.CMD_CHANNEL_NAME]. *)
Definition get_none_cmd_channel_servers (cmd_channel_name : string) (client : Client)
    : list Server :=
  List.filter (fun sv =>
    negb (existsb (fun ch => ch_is_text ch
                             && str_in (Py.upper (ch_name ch)) cmd_channel_name)
                  (sv_channels sv))) client.

(** ** The text on which the embedding is Python to the letter *)

(** Text of ASCII characters only, on which [len], [upper], [isdecimal],
    [int] and [strip] of the embedding are those of Python. *)
Fixpoint ascii_only (s : string) : bool :=
  match s with
  | EmptyString => true
  | String c s' => (nat_of_ascii c <? 128)%nat && ascii_only s'
  end.

(** Text without a percent sign, which [configparser] takes as it is. *)
Definition no_percent (s : string) : bool := Py.find s "%" =? -1.

(** A config whose token and enemy list hold no percent sign.  Neither does
    what [json.dumps] makes of such a list, so that [ASWDConfig.write] is not
    refused by [configparser]. *)
Definition plain_config (c : ASWDConfig) : bool :=
  no_percent (token c)
  && forallb (fun kv => no_percent kv.1 && no_percent kv.2) (enemy_list c).


(** ** Strings *)

Lemma app_empty_r (s : string) : s +:+ EmptyString = s.
Proof. induction s as [|a s IH]; simpl; [reflexivity | now rewrite IH]. Qed.

Lemma app_assoc_s (s t u : string) : (s +:+ t) +:+ u = s +:+ (t +:+ u).
Proof. induction s as [|a s IH]; simpl; [reflexivity | now rewrite IH]. Qed.

Lemma length_app_s (s t : string) :
  String.length (s +:+ t) = (String.length s + String.length t)%nat.
Proof. induction s as [|a s IH]; simpl; [reflexivity | now rewrite IH]. Qed.

Lemma app_cancel_l (s t u : string) : s +:+ t = s +:+ u -> t = u.
Proof. induction s as [|a s IH]; simpl; intros H; [exact H | injection H; auto]. Qed.

Lemma app_eq_self (s t : string) : s +:+ t = s -> t = EmptyString.
Proof. intros H. apply (app_cancel_l s). now rewrite app_empty_r. Qed.

Lemma prefix_app (p r : string) : String.prefix p (p +:+ r) = true.
Proof.
  induction p as [|a p IH]; simpl; [now destruct r |].
  destruct (ascii_dec a a); [exact IH | contradiction].
Qed.

Lemma prefix_inv (p s : string) :
  String.prefix p s = true -> exists r, s = p +:+ r.
Proof.
  revert s. induction p as [|a p IH]; intros s H.
  - exists s. reflexivity.
  - destruct s as [|b s]; simpl in H; [discriminate |].
    destruct (ascii_dec a b) as [<- |]; [| discriminate].
    destruct (IH s H) as [r ->]. exists r. reflexivity.
Qed.

Lemma slice_from_app (p r : string) : slice_from (String.length p) (p +:+ r) = r.
Proof. induction p as [|a p IH]; simpl; [now destruct r | exact IH]. Qed.

Lemma prefix_cons (a b : ascii) (p s : string) :
  String.prefix (String a p) (String b s) = Ascii.eqb a b && String.prefix p s.
Proof.
  cbn [String.prefix]. destruct (ascii_dec a b) as [-> | Hne].
  - now rewrite Ascii.eqb_refl.
  - apply Ascii.eqb_neq in Hne. now rewrite Hne.
Qed.

Lemma prefix_empty (s : string) : String.prefix EmptyString s = true.
Proof. now destruct s. Qed.

(** Running the lookup of [CommandManager.execute] on a line whose first
    characters are known. *)
Ltac find_cmd :=
  unfold manager_execute, cmd_list, base_cmd_list, help_cmd, is_call, Py.startswith;
  cbn [app List.find content cmd HelpCommand StartCommand StopCommand
       AddEnemyCommand DelEnemyCommand ListEnemyCommand AddBlackListCommand
       DelBlackListCommand ListBlackListCommand AddServerCommand
       DelServerCommand StatusCommand SetWatchWorldCommand
       SetWatchIntervalCommand SetPlayerSbnCountCommand FuckYeahCommand
       String.append];
  repeat (rewrite prefix_cons; cbn [Ascii.eqb Bool.eqb andb negb]);
  rewrite ?prefix_empty; cbn [negb].

(** Unfolding the operations of the monad, without touching anything else. *)
Ltac run_m :=
  cbv beta delta [bind ret gets modify emit write send_message sleep raise
                  pending try_except];
  cbn beta iota zeta delta [res_out res_cfg res_events app].

Section Properties.

Context (consts : Consts).

(** *** The dispatcher *)

(** What [Command.execute] does on the help form of any command. *)
Lemma execute_help (c : Command) (message : Message) (cfg : ASWDConfig) :
  content message = cmd c +:+ " /?" ->
  execute c message cfg
  = Result (Return (Some false)) cfg [EvSend (channel message) (Py.Lit (usage c))].
Proof.
  intros H. unfold execute, is_cmd_help. rewrite H, String.eqb_refl. reflexivity.
Qed.

(** C5.  For every registered command, dispatching its token followed by
    [" /?"] answers [False], sends the usage text of that command to the
    channel of the message and nothing else, emits no other event (no config
    write, no sleep, no channel operation) and leaves the config object as it
    was. *)
Theorem help_short_circuit (envs : list CycleEnv) (c : Command)
    (ch : Channel) (sv : Server) (cfg : ASWDConfig) :
  In c (cmd_list consts envs) ->
  manager_execute consts envs
    {| content := cmd c +:+ " /?"; channel := ch; server := sv |} cfg
  = Result (Return (Some false)) cfg [EvSend ch (Py.Lit (usage c))].
Proof.
  intros Hc. unfold cmd_list, base_cmd_list in Hc. simpl in Hc.
  repeat (destruct Hc as [<- | Hc]; [vm_compute; reflexivity |]).
  destruct Hc.
Qed.

(** C6, as amended.  For a command declared without arguments, a line made
    of the token and any trailing characters fails [is_valid]; [execute] then
    answers [False], sends the failure line followed by the usage text and
    leaves the config alone, except when the trailing characters are exactly
    [" /?"], where the help form is answered with the usage text alone.  For
    a command declared with arguments, [is_valid] accepts exactly the lines
    made of the token, one space and a nonempty remainder. *)
Theorem structural_validation (c : Command) (message : Message) (cfg : ASWDConfig) :
  (has_args c = false ->
   forall trailing,
     trailing <> EmptyString ->
     content message = cmd c +:+ trailing ->
     is_valid c message = false
     /\ (trailing <> " /?" ->
         execute c message cfg
         = Result (Return (Some false)) cfg
             [EvSend (channel message) (Py.Lit (msg_invalid +:+ Py.nl +:+ usage c))])
     /\ (trailing = " /?" ->
         execute c message cfg
         = Result (Return (Some false)) cfg
             [EvSend (channel message) (Py.Lit (usage c))]))
  /\ (has_args c = true ->
      (is_valid c message = true
       <-> exists rest, rest <> EmptyString
                        /\ content message = cmd c +:+ " " +:+ rest)).
Proof.
  split.
  - intros Hno trailing Hne Hcontent.
    assert (Hvalid : is_valid c message = false).
    { unfold is_valid. rewrite Hno, Hcontent. apply String.eqb_neq.
      intros H. apply Hne. exact (app_eq_self _ _ H). }
    split; [exact Hvalid |]. split.
    + intros Hnohelp. unfold execute, is_cmd_help.
      rewrite Hvalid, Hcontent.
      replace (String.eqb (cmd c +:+ " /?") (cmd c +:+ trailing)) with false.
      * reflexivity.
      * symmetry. apply String.eqb_neq. intros H. apply Hnohelp.
        symmetry. exact (app_cancel_l _ _ _ H).
    + intros ->. now apply execute_help.
  - intros Hargs. unfold is_valid, Py.startswith, Py.len. rewrite Hargs.
    rewrite andb_true_iff, Z.ltb_lt. split.
    + intros [Hpre Hlen]. destruct (prefix_inv _ _ Hpre) as [rest Hrest].
      rewrite app_assoc_s in Hrest. exists rest. split; [| exact Hrest].
      intros ->. rewrite Hrest in Hlen. rewrite !length_app_s in Hlen.
      simpl in Hlen. lia.
    + intros [rest [Hne ->]]. split.
      * rewrite <- app_assoc_s. apply prefix_app.
      * rewrite !length_app_s. destruct rest; [contradiction | simpl; lia].
Qed.

(** *** Settings *)





(** [Command.execute] on a line that is neither the help form nor
    structurally invalid: the validation hook decides. *)
Lemma execute_checked (c : Command) (message : Message) (args : string)
    (cfg : ASWDConfig) :
  has_args c = true ->
  content message = cmd c +:+ " " +:+ args ->
  args <> EmptyString ->
  args <> "/?" ->
  execute c message cfg
  = bind (valid_custom c message args)
      (fun valid_msg =>
         match valid_msg with
         | Some (String a m) =>
             bind (send_message (channel message)
                     (Py.Lit (String a m +:+ Py.nl +:+ usage c)))
                  (fun _ => ret (Some false))
         | _ => bind (execute_cmd c message args) (fun _ => ret None)
         end) cfg.
Proof.
  intros Hargs Hcontent Hne Hnohelp. unfold execute.
  assert (Hhelp : is_cmd_help c (content message) = false).
  { unfold is_cmd_help. rewrite Hcontent. apply String.eqb_neq. intros H.
    apply app_cancel_l in H. injection H as H. now symmetry in H. }
  assert (Hvalid : is_valid c message = true).
  { unfold is_valid, Py.startswith, Py.len. rewrite Hargs, Hcontent.
    apply andb_true_iff. split.
    - rewrite <- app_assoc_s. apply prefix_app.
    - apply Z.ltb_lt. rewrite !length_app_s.
      destruct args; [contradiction | simpl; lia]. }
  rewrite Hhelp, Hvalid. simpl negb. cbv iota.
  replace (slice_from (String.length (cmd c) + 1) (content message)) with args.
  - reflexivity.
  - rewrite Hcontent, <- app_assoc_s.
    replace (String.length (cmd c) + 1)%nat with (String.length (cmd c +:+ " ")).
    + now rewrite slice_from_app.
    + now rewrite length_app_s.
Qed.

(** C9.  The validation hook of /set player_count lets every nonempty
    argument through.  An argument of ASCII characters that [int] rejects
    therefore reaches [int(args)] in the body: the dispatcher ends with the
    [ValueError], no message sent and no setting changed.  /set world and
    /set interval answer an argument of ASCII characters that is not decimal
    with their error line and usage text, and do not run their body.  (Of
    text that is not ASCII Python knows further decimal digits, which the
    embedding does not.) *)
Theorem set_player_count_accepts_non_numbers (envs : list CycleEnv)
    (ch : Channel) (sv : Server) (args : string) (cfg : ASWDConfig) :
  args <> EmptyString ->
  args <> "/?" ->
  let line := fun c : Command =>
    {| content := cmd c +:+ " " +:+ args; channel := ch; server := sv |} in
  valid_custom SetPlayerSbnCountCommand (line SetPlayerSbnCountCommand) args cfg
  = Result (Return None) cfg []
  /\ (ascii_only args = true ->
      Py.int args = None ->
      manager_execute consts envs (line SetPlayerSbnCountCommand) cfg
      = Result (Raise Py.ValueError) cfg [])
  /\ (ascii_only args = true ->
      Py.isdecimal args = false ->
      manager_execute consts envs (line (SetWatchWorldCommand consts)) cfg
      = Result (Return (Some false)) cfg
          [EvSend ch (Py.Lit (msg_world_range +:+ Py.nl
                              +:+ usage (SetWatchWorldCommand consts)))]
      /\ manager_execute consts envs (line SetWatchIntervalCommand) cfg
         = Result (Return (Some false)) cfg
             [EvSend ch (Py.Lit (msg_interval_number +:+ Py.nl
                                 +:+ usage SetWatchIntervalCommand))]).
Proof.
  intros Hne Hnohelp line. split; [| split].
  - cbn [valid_custom SetPlayerSbnCountCommand].
    destruct args; [contradiction | reflexivity].
  - intros _ Hint.
    transitivity (execute SetPlayerSbnCountCommand (line SetPlayerSbnCountCommand) cfg).
    { subst line. cbv beta. find_cmd. reflexivity. }
    rewrite (execute_checked _ _ args) by (try reflexivity; assumption).
    cbn [valid_custom execute_cmd SetPlayerSbnCountCommand].
    destruct args as [|a args']; [contradiction |].
    cbn [is_empty_string]. unfold py_int. rewrite Hint. reflexivity.
  - intros _ Hdec. split.
    + transitivity (execute (SetWatchWorldCommand consts)
                      (line (SetWatchWorldCommand consts)) cfg).
      { subst line. cbv beta. find_cmd. reflexivity. }
      rewrite (execute_checked _ _ args) by (try reflexivity; assumption).
      cbn [valid_custom SetWatchWorldCommand]. rewrite Hdec, orb_true_r.
      reflexivity.
    + transitivity (execute SetWatchIntervalCommand (line SetWatchIntervalCommand) cfg).
      { subst line. cbv beta. find_cmd. reflexivity. }
      rewrite (execute_checked _ _ args) by (try reflexivity; assumption).
      cbn [valid_custom SetWatchIntervalCommand]. rewrite Hdec, orb_true_r.
      reflexivity.
Qed.

(** *** Searching in strings *)

Lemma find_from_none_shift (sub s : string) (i j : Z) :
  0 <= i -> Py.find_from sub s i = -1 -> Py.find_from sub s j = -1.
Proof.
  revert i j. induction s as [|a s IH]; intros i j Hi.
  - cbn [Py.find_from]. destruct (String.prefix sub EmptyString); [lia | reflexivity].
  - cbn [Py.find_from]. destruct (String.prefix sub (String a s)); [lia |].
    apply IH. lia.
Qed.

Lemma find_from_occurs (sub pre post : string) (i : Z) :
  0 <= i -> Py.find_from sub (pre +:+ sub +:+ post) i <> -1.
Proof.
  revert i. induction pre as [|a pre IH]; intros i Hi.
  - cbn [String.append]. destruct (sub +:+ post) eqn:E.
    + cbn [Py.find_from]. rewrite <- E, prefix_app. lia.
    + cbn [Py.find_from]. rewrite <- E, prefix_app. lia.
  - cbn [String.append Py.find_from].
    destruct (String.prefix sub _); [lia | apply IH; lia].
Qed.

Lemma find_occurs (sub pre post : string) :
  Py.find (pre +:+ sub +:+ post) sub <> -1.
Proof. apply find_from_occurs. lia. Qed.

(** A string without the character [d]. *)
Lemma find_char_cons (c d : ascii) (s : string) :
  Py.find (String c s) (String d EmptyString) = -1 ->
  c <> d /\ Py.find s (String d EmptyString) = -1.
Proof.
  unfold Py.find. cbn [Py.find_from String.prefix].
  destruct (ascii_dec d c) as [-> | Hne].
  - destruct s; cbn; lia.
  - intros H. split; [congruence |].
    now apply (find_from_none_shift _ _ (0 + 1) 0).
Qed.

Lemma find_char_app (d : ascii) (s t : string) :
  Py.find s (String d EmptyString) = -1 ->
  Py.find t (String d EmptyString) = -1 ->
  Py.find (s +:+ t) (String d EmptyString) = -1.
Proof.
  induction s as [|a s IH]; intros Hs Ht; [exact Ht |].
  apply find_char_cons in Hs as [Hne Hs].
  cbn [String.append]. unfold Py.find. cbn [Py.find_from String.prefix].
  destruct (ascii_dec d a); [congruence |].
  apply (find_from_none_shift _ _ 0); [lia |]. now apply IH.
Qed.

Lemma join_occurs (sep x : string) (l : list string) :
  In x l -> exists pre post, Py.join sep l = pre +:+ x +:+ post.
Proof.
  induction l as [|y l IH]; intros Hin; [destruct Hin |].
  destruct Hin as [-> | Hin].
  - destruct l as [|z l].
    + exists EmptyString, EmptyString. cbn. now rewrite app_empty_r.
    + exists EmptyString, (sep +:+ Py.join sep (z :: l)). reflexivity.
  - destruct (IH Hin) as (pre & post & E). destruct l as [|z l]; [destruct Hin |].
    exists (y +:+ sep +:+ pre), post.
    change (Py.join sep (y :: z :: l)) with (y +:+ sep +:+ Py.join sep (z :: l)).
    now rewrite E, !app_assoc_s.
Qed.

(** *** Quoted arguments *)

Lemma split_quoted_inside (s rest : string) (acc : list string) (arg : string) :
  Py.find s Py.dq = -1 ->
  split_quoted (s +:+ rest) acc arg true = split_quoted rest acc (arg +:+ s) true.
Proof.
  revert arg. induction s as [|a s IH]; intros arg Hs.
  - now rewrite app_empty_r.
  - apply find_char_cons in Hs as [Hne Hs].
    cbn [String.append split_quoted]. rewrite andb_false_r.
    destruct (Ascii.eqb_spec a "034"); [contradiction |].
    rewrite (IH _ Hs), app_assoc_s. reflexivity.
Qed.

(** C8.  Two double-quoted spans separated by one space are split into
    exactly two tokens, the texts between the quotes: the quote characters
    are consumed and the blanks inside a span stay (each token goes through
    [strip], which only touches its ends). *)
Theorem split_args_quoted_pair (a b : string) :
  Py.find a Py.dq = -1 ->
  Py.find b Py.dq = -1 ->
  b <> EmptyString ->
  split_args (Py.dq +:+ a +:+ Py.dq +:+ " " +:+ Py.dq +:+ b +:+ Py.dq)
  = Some [Py.strip a; Py.strip b].
Proof.
  intros Ha Hb Hne. unfold split_args.
  assert (E : Py.find (Py.dq +:+ a +:+ Py.dq +:+ " " +:+ Py.dq +:+ b +:+ Py.dq) Py.dq = 0).
  { unfold Py.find.
    generalize (a +:+ Py.dq +:+ " " +:+ Py.dq +:+ b +:+ Py.dq). intros r.
    pose proof (prefix_app Py.dq r) as Hp.
    destruct (Py.dq +:+ r) eqn:Er; cbn [Py.find_from]; now rewrite Hp. }
  rewrite E. change (0 <=? 0) with true. cbv iota. f_equal.
  change (Py.dq +:+ a +:+ Py.dq +:+ " " +:+ Py.dq +:+ b +:+ Py.dq)
    with (String "034" (a +:+ Py.dq +:+ " " +:+ Py.dq +:+ b +:+ Py.dq)).
  cbn [split_quoted Ascii.eqb Bool.eqb andb negb].
  rewrite (split_quoted_inside a) by exact Ha.
  change (Py.dq +:+ " " +:+ Py.dq +:+ b +:+ Py.dq)
    with (String "034" (String " " (String "034" (b +:+ Py.dq)))).
  cbn [split_quoted Ascii.eqb Bool.eqb andb negb String.append app].
  rewrite (split_quoted_inside b) by exact Hb.
  cbn [Py.dq split_quoted Ascii.eqb Bool.eqb andb negb String.append].
  destruct b; [contradiction | reflexivity].
Qed.

(** *** The enemy list *)

Lemma dict_mem_In (k : string) (d : list (string * string)) :
  dict_mem k d = true <-> In k (dict_keys d).
Proof.
  induction d as [|[k' v] d IH]; simpl; [split; [discriminate | tauto] |].
  destruct (String.eqb_spec k' k) as [-> | Hne].
  - split; auto.
  - rewrite IH. split; [auto | intros [H | H]; [contradiction | exact H]].
Qed.

Lemma dict_mem_entry (k v : string) (d : list (string * string)) :
  In (k, v) d -> dict_mem k d = true.
Proof.
  intros H. apply dict_mem_In. unfold dict_keys.
  change k with (k, v).1. now apply in_map.
Qed.

Lemma dict_set_fresh (k v : string) (d : list (string * string)) :
  dict_mem k d = false -> dict_set k v d = d ++ [(k, v)].
Proof.
  induction d as [|[k' v'] d IH]; simpl; [reflexivity |].
  destruct (String.eqb k' k); [discriminate |]. intros H. now rewrite IH.
Qed.

Lemma dict_mem_set (k v : string) (d : list (string * string)) :
  dict_mem k (dict_set k v d) = true.
Proof.
  induction d as [|[k' v'] d IH]; simpl.
  - now rewrite String.eqb_refl.
  - destruct (String.eqb k' k) eqn:E; simpl; rewrite E; [reflexivity | exact IH].
Qed.

Lemma dict_pop_set_fresh (k v : string) (d : list (string * string)) :
  dict_mem k d = false -> dict_pop k (dict_set k v d) = d.
Proof.
  induction d as [|[k' v'] d IH]; simpl.
  - now rewrite String.eqb_refl.
  - destruct (String.eqb k' k) eqn:E; [discriminate |].
    intros H. simpl. rewrite E, IH; auto.
Qed.



Lemma stored_company (company : string) :
  match company with EmptyString => EmptyString | _ => Py.strip company end
  = Py.strip company.
Proof. now destruct company. Qed.

Lemma add_enemy_fresh (name company : string) (cfg : ASWDConfig) :
  dict_mem name (enemy_list cfg) = false ->
  add_enemy name company cfg
  = let cfg' := with_enemy_list (enemy_list cfg ++ [(name, Py.strip company)]) cfg in
    Result (Return true) cfg' [EvWrite (persisted cfg')].
Proof.
  intros H. unfold add_enemy, bind, gets, modify, write, ret. simpl.
  rewrite H. simpl. now rewrite stored_company, dict_set_fresh.
Qed.

Lemma add_enemy_present (name company : string) (cfg : ASWDConfig) :
  dict_mem name (enemy_list cfg) = true ->
  add_enemy name company cfg = Result (Return false) cfg [].
Proof.
  intros H. unfold add_enemy, bind, gets, ret. simpl. now rewrite H.
Qed.

Lemma del_enemy_absent (name : string) (cfg : ASWDConfig) :
  dict_mem name (enemy_list cfg) = false ->
  del_enemy name cfg = Result (Return false) cfg [].
Proof.
  intros H. unfold del_enemy, bind, gets, ret. simpl. now rewrite H.
Qed.

Lemma del_enemy_present (name : string) (cfg : ASWDConfig) :
  dict_mem name (enemy_list cfg) = true ->
  del_enemy name cfg
  = let cfg' := with_enemy_list (dict_pop name (enemy_list cfg)) cfg in
    Result (Return true) cfg' [EvWrite (persisted cfg')].
Proof.
  intros H. unfold del_enemy, bind, gets, modify, write, ret. simpl.
  now rewrite H.
Qed.

(** The rendering [name(company)] determines the name when neither part has
    an opening parenthesis. *)
Lemma format_paren_name (x y k v : string) :
  Py.find x "(" = -1 ->
  Py.find y "(" = -1 ->
  Py.format_paren k v = Py.format_paren x y ->
  k = x.
Proof.
  unfold Py.format_paren. intros Hx Hy.
  assert (Hr : Py.find (y +:+ ")") "(" = -1) by (now apply find_char_app).
  revert Hr. generalize (y +:+ ")"). generalize (v +:+ ")"). clear Hy.
  revert k. induction x as [|a x IH]; intros k r' r Hr E.
  - destruct k as [|c k]; [reflexivity |]. cbn in E. injection E as Hc E.
    exfalso. revert Hr. rewrite <- E. apply (find_occurs "(" k r').
  - apply find_char_cons in Hx as [Hne Hx].
    destruct k as [|c k]; cbn in E; injection E as Hc E.
    + now subst a.
    + subst c. f_equal. exact (IH Hx k r' r Hr E).
Qed.

(** C7.  After a name that is not yet on the enemy list has been added,
    [list_enemy] contains [name(company)], the company being stripped (stated
    for a company of ASCII characters, of which [strip] removes the white
    space Python does); after that name has been deleted the config is back
    to what it was, so the name is listed no more (and no item reads
    [name(company)] when neither part has an opening parenthesis).  When the
    config and the two strings hold no percent sign, so that [configparser]
    takes them, the addition and the deletion both answer [True] and rewrite
    the config file with the list as it then is.  Deleting a name that is not
    on the list answers [False], changes nothing and writes nothing; adding a
    name that is on the list answers [False], changes nothing and writes
    nothing. *)
Theorem enemy_round_trip (cfg : ASWDConfig) (x y : string) :
  dict_mem x (enemy_list cfg) = false ->
  ascii_only y = true ->
  let r1 := add_enemy x y cfg in
  let r2 := del_enemy x (res_cfg r1) in
  (In (Py.format_paren x (Py.strip y)) (list_enemy_items (res_cfg r1))
   /\ Py.find (list_enemy (res_cfg r1)) (Py.format_paren x (Py.strip y)) <> -1)
  /\ (res_cfg r2 = cfg
      /\ ~ In x (dict_keys (enemy_list (res_cfg r2)))
      /\ (Py.find x "(" = -1 -> Py.find (Py.strip y) "(" = -1 ->
          ~ In (Py.format_paren x (Py.strip y)) (list_enemy_items (res_cfg r2))))
  /\ (plain_config cfg = true -> no_percent x = true -> no_percent y = true ->
      res_out r1 = Return true
      /\ res_events r1 = [EvWrite (persisted (res_cfg r1))]
      /\ res_out r2 = Return true
      /\ res_events r2 = [EvWrite (persisted (res_cfg r2))])
  /\ del_enemy x cfg = Result (Return false) cfg []
  /\ (forall y', add_enemy x y' (res_cfg r1) = Result (Return false) (res_cfg r1) []).
Proof.
  intros Hfresh _ r1 r2.
  assert (E1 : r1 = let cfg' := with_enemy_list (enemy_list cfg ++ [(x, Py.strip y)]) cfg in
                    Result (Return true) cfg' [EvWrite (persisted cfg')])
    by (now apply add_enemy_fresh).
  assert (Hmem1 : dict_mem x (enemy_list (res_cfg r1)) = true).
  { rewrite E1. simpl. rewrite <- (dict_set_fresh x (Py.strip y)) by exact Hfresh.
    apply dict_mem_set. }
  assert (Hitem : In (Py.format_paren x (Py.strip y)) (list_enemy_items (res_cfg r1))).
  { rewrite E1. unfold list_enemy_items. simpl. rewrite map_app.
    apply in_or_app. right. now left. }
  assert (E2 : r2 = Result (Return true) cfg [EvWrite (persisted cfg)]).
  { unfold r2. rewrite (del_enemy_present _ _ Hmem1). rewrite E1. simpl.
    rewrite <- (dict_set_fresh x (Py.strip y)) by exact Hfresh.
    rewrite (dict_pop_set_fresh _ _ _ Hfresh).
    now destruct cfg. }
  split; [| split; [| split; [| split]]].
  - split; [exact Hitem |].
    destruct (join_occurs ", " _ _ Hitem) as (pre & post & E).
    unfold list_enemy. rewrite E. apply find_occurs.
  - rewrite E2. simpl. split; [reflexivity |]. split.
    + intros Hin. apply dict_mem_In in Hin. congruence.
    + intros Hx Hy Hin. unfold list_enemy_items in Hin.
      apply in_map_iff in Hin as ([k v] & Hkv & Hin). simpl in Hkv.
      apply (format_paren_name _ _ _ _ Hx Hy) in Hkv as ->.
      apply dict_mem_entry in Hin. congruence.
  - intros _ _ _. rewrite E2, E1. now repeat split.
  - now apply del_enemy_absent.
  - intros y'. now apply add_enemy_present.
Qed.



(** *** Enemy matching *)

Lemma player_matches_true (enemy player : string) :
  player <> EmptyString ->
  Py.find (Py.upper player) (Py.upper enemy) <> -1 ->
  player_matches enemy player = true.
Proof.
  intros Hne Hfind. unfold player_matches.
  destruct player; [contradiction |]. cbn [is_empty_string orb].
  destruct (Z.eqb_spec (Py.find (Py.upper (String a player)) (Py.upper enemy)) (-1));
    [contradiction | reflexivity].
Qed.

(** C2, as amended.  Once a name that was not on the enemy list has been
    added with a company, every fetched player whose name contains that name,
    letter case aside, is reported as [player(company)]: the label between
    the parentheses is the company stored for the entry (stripped), not the
    name of the entry.  With no other entry and no other player this is the
    only string reported. *)
Theorem enemy_match_label (cfg : ASWDConfig) (name company player : string)
    (names : list string) :
  dict_mem name (enemy_list cfg) = false ->
  player <> EmptyString ->
  Py.find (Py.upper player) (Py.upper name) <> -1 ->
  In player names ->
  let cfg' := res_cfg (add_enemy name company cfg) in
  exists found,
    find_enemy_players (PlayerArray names) cfg' = Result (Return found) cfg' []
    /\ In (Py.format_paren player (Py.strip company)) found
    /\ (enemy_list cfg = [] -> names = [player] ->
        found = [Py.format_paren player (Py.strip company)]).
Proof.
  intros Hfresh Hne Hfind Hin cfg'.
  assert (Hlist : enemy_list cfg' = enemy_list cfg ++ [(name, Py.strip company)]).
  { subst cfg'. now rewrite (add_enemy_fresh _ _ _ Hfresh). }
  pose proof (player_matches_true _ _ Hne Hfind) as Hmatch.
  unfold find_enemy_players. run_m. rewrite Hlist.
  destruct names as [|n names]; [destruct Hin |].
  eexists. split; [reflexivity |]. split.
  - apply in_flat_map. exists (name, Py.strip company). split.
    + apply in_or_app. right. now left.
    + cbn [fst snd].
      apply (in_map (fun p => Py.format_paren p (Py.strip company))).
      apply filter_In. now split.
  - intros Hempty Hnames. injection Hnames as -> ->. rewrite Hempty.
    cbn [app flat_map fst snd List.filter]. rewrite Hmatch. reflexivity.
Qed.

(** *** The notice list *)

Lemma list_mem_occurrences (s : string) (l : list string) :
  list_mem s l = negb (occurrences s l =? 0)%nat.
Proof.
  unfold list_mem, occurrences. induction l as [|x l IH]; [reflexivity |].
  cbn [existsb List.filter]. destruct (String.eqb s x); [reflexivity | exact IH].
Qed.

Lemma occurrences_app (s : string) (l l' : list string) :
  occurrences s (l ++ l') = (occurrences s l + occurrences s l')%nat.
Proof. unfold occurrences. now rewrite List.filter_app, length_app. Qed.

Lemma occurrences_remove (s x : string) (l : list string) :
  occurrences s (list_remove x l)
  = if String.eqb s x then Nat.pred (occurrences s l) else occurrences s l.
Proof.
  unfold occurrences. induction l as [|y l IH].
  - now destruct (String.eqb s x).
  - cbn [list_remove]. destruct (String.eqb_spec x y) as [<- | Hxy].
    + cbn [List.filter]. destruct (String.eqb s x); reflexivity.
    + cbn [List.filter]. destruct (String.eqb_spec s y) as [<- | Hsy].
      * destruct (String.eqb_spec s x) as [-> | _]; [contradiction |].
        cbn [length]. f_equal. destruct (String.eqb_spec s x); [congruence | exact IH].
      * exact IH.
Qed.

Lemma count_events_app (p : event -> bool) (l l' : list event) :
  count_events p (l ++ l') = (count_events p l + count_events p l')%nat.
Proof. unfold count_events. now rewrite List.filter_app, length_app. Qed.

Lemma same_settings_refl (c : ASWDConfig) : same_settings c c.
Proof. repeat split. Qed.

Lemma same_settings_trans (c c' c'' : ASWDConfig) :
  same_settings c c' -> same_settings c' c'' -> same_settings c c''.
Proof. unfold same_settings. intuition congruence. Qed.

(** What [notify_channel] does, spelled out. *)
Lemma notify_channel_result (timestr : string) (m : gmap string ServerInfo)
    (ch : Channel) (cfg : ASWDConfig) :
  let r := notify_channel timestr m ch cfg in
  res_out r = Return tt
  /\ same_settings cfg (res_cfg r)
  /\ match m !! Py.upper (ch_name ch) with
     | None =>
         enemy_notice_server_names (res_cfg r) = enemy_notice_server_names cfg
         /\ res_events r = [EvSend ch (msg_data_error timestr (Py.upper (ch_name ch)))]
     | Some si =>
         let noticed := enemy_notice_server_names cfg in
         let fresh := (0 <? length (si_enemy_players si))%nat
                      && negb (list_mem (si_server_name si) noticed) in
         let noticed1 := if fresh then noticed ++ [si_server_name si] else noticed in
         let gone := (length (si_enemy_players si) =? 0)%nat
                     && list_mem (si_server_name si) noticed1 in
         enemy_notice_server_names (res_cfg r)
         = (if gone then list_remove (si_server_name si) noticed1 else noticed1)
         /\ res_events r
            = [EvSend ch (msg_status timestr si)]
              ++ (if player_sbn_count cfg <=? si_player_sbn_count si
                  then [EvSend ch (msg_surge si)] else [])
              ++ (if fresh then [EvSend ch (msg_intrusion si)] else [])
              ++ (if gone then [EvSend ch msg_all_clear] else [])
     end.
Proof.
  unfold notify_channel. destruct (m !! Py.upper (ch_name ch)) as [si |].
  - run_m.
    destruct (player_sbn_count cfg <=? si_player_sbn_count si);
      destruct (0 <? length (si_enemy_players si))%nat eqn:En;
      destruct (length (si_enemy_players si) =? 0)%nat eqn:Ez;
      cbn [res_out res_cfg res_events app andb negb
           enemy_notice_server_names with_enemy_notice_server_names];
      destruct (list_mem (si_server_name si) (enemy_notice_server_names cfg)) eqn:Em;
      cbn [res_out res_cfg res_events app andb negb
           enemy_notice_server_names with_enemy_notice_server_names];
      rewrite ?Em;
      cbn [res_out res_cfg res_events app andb negb
           enemy_notice_server_names with_enemy_notice_server_names];
      try (destruct (list_mem (si_server_name si)
                       (enemy_notice_server_names cfg ++ [si_server_name si]));
           cbn [res_out res_cfg res_events app andb negb
                enemy_notice_server_names with_enemy_notice_server_names]);
      repeat split.
  - run_m. repeat split.
Qed.
Lemma count_events_other_channel (p : string -> event -> bool) (s : string)
    (ch : Channel) (events : list event) :
  (forall msg, p s (EvSend ch msg) = false) ->
  Forall (fun ev => exists msg, ev = EvSend ch msg) events ->
  count_events (p s) events = 0%nat.
Proof.
  intros Hp Hall. unfold count_events.
  induction Hall as [|ev l [msg ->] _ IH]; [reflexivity |].
  cbn [List.filter]. now rewrite Hp.
Qed.

Lemma notify_channel_events (timestr : string) (m : gmap string ServerInfo)
    (ch : Channel) (cfg : ASWDConfig) :
  Forall (fun ev => exists msg, ev = EvSend ch msg)
         (res_events (notify_channel timestr m ch cfg)).
Proof.
  destruct (notify_channel_result timestr m ch cfg) as (_ & _ & H).
  destruct (m !! Py.upper (ch_name ch)) as [si |].
  - destruct H as [_ ->].
    repeat match goal with
           | |- context [if ?b then _ else _] => destruct b
           end; repeat constructor; eauto.
  - destruct H as [_ ->]. repeat constructor. eauto.
Qed.

(** A reporting channel of another server leaves server [s] alone. *)
Lemma notify_channel_other (timestr : string) (m : gmap string ServerInfo)
    (ch : Channel) (cfg : ASWDConfig) (s : string) :
  keyed m ->
  Py.upper (ch_name ch) <> s ->
  let r := notify_channel timestr m ch cfg in
  occurrences s (enemy_notice_server_names (res_cfg r))
  = occurrences s (enemy_notice_server_names cfg)
  /\ count_events (is_surge_alert_for s) (res_events r) = 0%nat
  /\ count_events (is_intrusion_alert_for s) (res_events r) = 0%nat
  /\ count_events (is_all_clear_for s) (res_events r) = 0%nat.
Proof.
  intros Hkeyed Hne r.
  assert (Hneb : String.eqb (Py.upper (ch_name ch)) s = false)
    by (now apply String.eqb_neq).
  pose proof (notify_channel_events timestr m ch cfg) as Hev.
  split; [| repeat split;
            (apply (count_events_other_channel _ s ch); [| exact Hev]);
            intros [t | t a]; cbn; rewrite ?Hneb, ?andb_false_r; reflexivity].
  destruct (notify_channel_result timestr m ch cfg) as (_ & _ & H).
  fold r in H. destruct (m !! Py.upper (ch_name ch)) as [si |] eqn:E.
  - destruct H as [-> _]. apply Hkeyed in E.
    assert (Hs : String.eqb s (si_server_name si) = false)
      by (apply String.eqb_neq; congruence).
    repeat match goal with
           | |- context [if ?b then _ else _] => destruct b
           end;
      rewrite ?occurrences_remove, ?occurrences_app, ?Hs;
      unfold occurrences; cbn [List.filter length]; rewrite ?Hs; cbn [length]; lia.
  - destruct H as [-> _]. reflexivity.
Qed.

Lemma count_events_single (p : event -> bool) (ev : event) :
  count_events p [ev] = if p ev then 1%nat else 0%nat.
Proof. unfold count_events. cbn [List.filter]. now destruct (p ev). Qed.

Lemma count_events_optional (p : event -> bool) (b : bool) (ev : event) :
  count_events p (if b then [ev] else []) = if b && p ev then 1%nat else 0%nat.
Proof. destruct b; [apply count_events_single | reflexivity]. Qed.

Lemma classify_status (s timestr : string) (ch : Channel) (si : ServerInfo) :
  is_surge_alert_for s (EvSend ch (msg_status timestr si)) = false
  /\ is_intrusion_alert_for s (EvSend ch (msg_status timestr si)) = false
  /\ is_all_clear_for s (EvSend ch (msg_status timestr si)) = false.
Proof. repeat split. Qed.

Lemma classify_surge (s : string) (ch : Channel) (si : ServerInfo) :
  is_surge_alert_for s (EvSend ch (msg_surge si)) = String.eqb (Py.upper (ch_name ch)) s
  /\ is_intrusion_alert_for s (EvSend ch (msg_surge si)) = false
  /\ is_all_clear_for s (EvSend ch (msg_surge si)) = false.
Proof. repeat split. Qed.

Lemma classify_intrusion (s : string) (ch : Channel) (si : ServerInfo) :
  is_surge_alert_for s (EvSend ch (msg_intrusion si)) = false
  /\ is_intrusion_alert_for s (EvSend ch (msg_intrusion si))
     = String.eqb (Py.upper (ch_name ch)) s
  /\ is_all_clear_for s (EvSend ch (msg_intrusion si)) = false.
Proof. repeat split. Qed.

Lemma classify_all_clear (s : string) (ch : Channel) :
  is_surge_alert_for s (EvSend ch msg_all_clear) = false
  /\ is_intrusion_alert_for s (EvSend ch msg_all_clear) = false
  /\ is_all_clear_for s (EvSend ch msg_all_clear) = String.eqb (Py.upper (ch_name ch)) s.
Proof. repeat split. Qed.

(** The reporting channel of server [s] itself. *)
Lemma notify_channel_own (timestr : string) (m : gmap string ServerInfo)
    (ch : Channel) (cfg : ASWDConfig) (s : string) (si : ServerInfo) :
  m !! s = Some si ->
  si_server_name si = s ->
  Py.upper (ch_name ch) = s ->
  let r := notify_channel timestr m ch cfg in
  let k := occurrences s (enemy_notice_server_names cfg) in
  let some := (0 <? length (si_enemy_players si))%nat in
  occurrences s (enemy_notice_server_names (res_cfg r))
  = (if some then (if (k =? 0)%nat then 1%nat else k) else Nat.pred k)
  /\ count_events (is_surge_alert_for s) (res_events r)
     = (if player_sbn_count cfg <=? si_player_sbn_count si then 1%nat else 0%nat)
  /\ count_events (is_intrusion_alert_for s) (res_events r)
     = (if some && (k =? 0)%nat then 1%nat else 0%nat)
  /\ count_events (is_all_clear_for s) (res_events r)
     = (if some || (k =? 0)%nat then 0%nat else 1%nat).
Proof.
  intros Hm Hname Hch r k some.
  destruct (notify_channel_result timestr m ch cfg) as (_ & _ & H).
  fold r in H. rewrite Hch, Hm in H. cbv zeta in H. rewrite Hname in H.
  destruct H as [Hn He]. rewrite Hn, He. clear Hn He.
  rewrite !list_mem_occurrences. fold k.
  assert (Hlen : (length (si_enemy_players si) =? 0)%nat = negb some).
  { subst some. destruct (length (si_enemy_players si)); reflexivity. }
  rewrite Hlen. fold some.
  assert (Hss : String.eqb s s = true) by apply String.eqb_refl.
  assert (Hcs : String.eqb (Py.upper (ch_name ch)) s = true)
    by (rewrite Hch; apply String.eqb_refl).
  destruct (classify_status s timestr ch si) as (S1 & S2 & S3).
  destruct (classify_surge s ch si) as (U1 & U2 & U3).
  destruct (classify_intrusion s ch si) as (I1 & I2 & I3).
  destruct (classify_all_clear s ch) as (A1 & A2 & A3).
  rewrite !count_events_app, !count_events_optional, !count_events_single.
  rewrite S1, S2, S3, U1, U2, U3, I1, I2, I3, A1, A2, A3, Hcs.
  assert (Hone : occurrences s [s] = 1%nat).
  { unfold occurrences. cbn [List.filter]. now rewrite Hss. }
  destruct some; destruct (k =? 0)%nat eqn:Ek;
    destruct (player_sbn_count cfg <=? si_player_sbn_count si);
    cbn [negb andb orb];
    rewrite ?occurrences_app, ?occurrences_remove, ?Hss, ?Hone;
    fold k; rewrite ?Ek; cbn [negb andb orb];
    rewrite ?occurrences_remove, ?occurrences_app, ?Hss, ?Hone; fold k;
    (apply Nat.eqb_eq in Ek || apply Nat.eqb_neq in Ek);
    repeat split; try reflexivity; try lia.
Qed.
Lemma bind_return {A B : Type} (m : M A) (k : A -> M B) (c : ASWDConfig) (a : A) :
  res_out (m c) = Return a ->
  res_out (bind m k c) = res_out (k a (res_cfg (m c)))
  /\ res_cfg (bind m k c) = res_cfg (k a (res_cfg (m c)))
  /\ res_events (bind m k c) = res_events (m c) ++ res_events (k a (res_cfg (m c))).
Proof. unfold bind. intros ->. auto. Qed.

Lemma notify_channels_cons (timestr : string) (m : gmap string ServerInfo)
    (ch : Channel) (rest : list Channel) (cfg : ASWDConfig) :
  let r1 := notify_channel timestr m ch cfg in
  let r2 := notify_channels timestr m rest (res_cfg r1) in
  let r := notify_channels timestr m (ch :: rest) cfg in
  res_out r = res_out r2 /\ res_cfg r = res_cfg r2
  /\ res_events r = res_events r1 ++ res_events r2.
Proof.
  cbv zeta. cbn [notify_channels].
  destruct (notify_channel_result timestr m ch cfg) as (Hout & _).
  exact (bind_return _ _ _ _ Hout).
Qed.

Lemma notify_channels_result (timestr : string) (m : gmap string ServerInfo)
    (channels : list Channel) (cfg : ASWDConfig) :
  res_out (notify_channels timestr m channels cfg) = Return tt
  /\ same_settings cfg (res_cfg (notify_channels timestr m channels cfg)).
Proof.
  revert cfg. induction channels as [|ch rest IH]; intros cfg.
  - split; [reflexivity | apply same_settings_refl].
  - destruct (notify_channels_cons timestr m ch rest cfg) as (-> & -> & _).
    destruct (notify_channel_result timestr m ch cfg) as (_ & Hs & _).
    destruct (IH (res_cfg (notify_channel timestr m ch cfg))) as [Ho Hs'].
    split; [exact Ho | exact (same_settings_trans _ _ _ Hs Hs')].
Qed.

(** A cycle in which server [s] has enemies: the first of its reporting
    channels gets the intrusion alert if [s] is not on the notice list, and
    [s] is put on the list; nothing else is said about enemies. *)
Lemma notify_channels_enemies (timestr : string) (m : gmap string ServerInfo)
    (channels : list Channel) (cfg : ASWDConfig) (s : string) (si : ServerInfo) :
  keyed m ->
  m !! s = Some si ->
  (0 < length (si_enemy_players si))%nat ->
  let r := notify_channels timestr m channels cfg in
  let k := occurrences s (enemy_notice_server_names cfg) in
  let first := has_channel s channels && (k =? 0)%nat in
  occurrences s (enemy_notice_server_names (res_cfg r)) = (if first then 1%nat else k)
  /\ count_events (is_intrusion_alert_for s) (res_events r)
     = (if first then 1%nat else 0%nat)
  /\ count_events (is_all_clear_for s) (res_events r) = 0%nat.
Proof.
  intros Hkeyed Hm Hsome. revert cfg.
  induction channels as [|ch rest IH]; intros cfg; cbv zeta.
  - repeat split.
  - destruct (notify_channels_cons timestr m ch rest cfg) as (_ & -> & ->).
    rewrite !count_events_app.
    specialize (IH (res_cfg (notify_channel timestr m ch cfg))). cbv zeta in IH.
    destruct IH as (IHo & IHi & IHc). rewrite IHo, IHi, IHc. clear IHo IHi IHc.
    cbn [has_channel existsb]. fold (has_channel s rest).
    destruct (String.eqb_spec (Py.upper (ch_name ch)) s) as [Hown | Hother].
    + destruct (notify_channel_own timestr m ch cfg s si Hm (Hkeyed _ _ Hm) Hown)
        as (Ho & _ & Hi & Hc).
      apply Nat.ltb_lt in Hsome. rewrite Hsome in Ho, Hi, Hc.
      rewrite Ho, Hi, Hc. cbn [orb andb].
      destruct (occurrences s (enemy_notice_server_names cfg)) as [|k'];
        cbn [Nat.eqb andb]; rewrite ?andb_false_r; repeat split; lia.
    + destruct (notify_channel_other timestr m ch cfg s Hkeyed Hother)
        as (Ho & _ & Hi & Hc).
      rewrite Ho, Hi, Hc. cbn [orb]. repeat split; lia.
Qed.

(** A cycle in which server [s] has no enemy, [s] being on the notice list
    at most once: the first of its reporting channels gets the all-clear if
    [s] is on the list, and [s] is taken off; nothing else is said about
    enemies. *)
Lemma notify_channels_no_enemy (timestr : string) (m : gmap string ServerInfo)
    (channels : list Channel) (cfg : ASWDConfig) (s : string) (si : ServerInfo) :
  keyed m ->
  m !! s = Some si ->
  length (si_enemy_players si) = 0%nat ->
  (occurrences s (enemy_notice_server_names cfg) <= 1)%nat ->
  let r := notify_channels timestr m channels cfg in
  let k := occurrences s (enemy_notice_server_names cfg) in
  occurrences s (enemy_notice_server_names (res_cfg r))
  = (if has_channel s channels then 0%nat else k)
  /\ count_events (is_intrusion_alert_for s) (res_events r) = 0%nat
  /\ count_events (is_all_clear_for s) (res_events r)
     = (if has_channel s channels then k else 0%nat).
Proof.
  intros Hkeyed Hm Hnone. revert cfg.
  induction channels as [|ch rest IH]; intros cfg Hk; cbv zeta.
  - repeat split.
  - destruct (notify_channels_cons timestr m ch rest cfg) as (_ & -> & ->).
    rewrite !count_events_app.
    cbn [has_channel existsb]. fold (has_channel s rest).
    destruct (String.eqb_spec (Py.upper (ch_name ch)) s) as [Hown | Hother].
    + destruct (notify_channel_own timestr m ch cfg s si Hm (Hkeyed _ _ Hm) Hown)
        as (Ho & _ & Hi & Hc).
      rewrite Hnone in Ho, Hi, Hc. cbn [Nat.ltb Nat.leb andb orb] in Ho, Hi, Hc.
      specialize (IH (res_cfg (notify_channel timestr m ch cfg))).
      rewrite Ho in IH. cbv zeta in IH.
      destruct IH as (IHo & IHi & IHc); [lia |].
      rewrite IHo, IHi, IHc, Hi, Hc. cbn [orb].
      destruct (occurrences s (enemy_notice_server_names cfg)) as [|[|k']];
        [| | lia]; cbn [Nat.eqb Nat.pred]; destruct (has_channel s rest);
        repeat split; lia.
    + destruct (notify_channel_other timestr m ch cfg s Hkeyed Hother)
        as (Ho & _ & Hi & Hc).
      specialize (IH (res_cfg (notify_channel timestr m ch cfg))).
      rewrite Ho in IH. cbv zeta in IH.
      destruct (IH Hk) as (IHo & IHi & IHc).
      rewrite IHo, IHi, IHc, Hi, Hc. cbn [orb]. repeat split; lia.
Qed.

(** No surge alert for a server whose surge is below the threshold. *)
Lemma notify_channels_no_surge (timestr : string) (m : gmap string ServerInfo)
    (channels : list Channel) (cfg : ASWDConfig) (s : string) :
  keyed m ->
  (forall si, m !! s = Some si -> si_player_sbn_count si < player_sbn_count cfg) ->
  count_events (is_surge_alert_for s)
    (res_events (notify_channels timestr m channels cfg)) = 0%nat.
Proof.
  intros Hkeyed Hlow. revert cfg Hlow.
  induction channels as [|ch rest IH]; intros cfg Hlow; [reflexivity |].
  destruct (notify_channels_cons timestr m ch rest cfg) as (_ & _ & ->).
  rewrite count_events_app.
  destruct (notify_channel_result timestr m ch cfg) as (_ & Hs & Hr).
  rewrite IH.
  2:{ intros si Hsi. destruct Hs as (_ & _ & _ & -> & _). now apply Hlow. }
  destruct (String.eqb_spec (Py.upper (ch_name ch)) s) as [Hown | Hother].
  - destruct (m !! s) as [si |] eqn:Hm.
    + destruct (notify_channel_own timestr m ch cfg s si Hm (Hkeyed _ _ Hm) Hown)
        as (_ & Hu & _).
      rewrite Hu. specialize (Hlow si eq_refl).
      destruct (Z.leb_spec (player_sbn_count cfg) (si_player_sbn_count si)); lia.
    + rewrite Hown, Hm in Hr. destruct Hr as [_ ->]. reflexivity.
  - destruct (notify_channel_other timestr m ch cfg s Hkeyed Hother) as (_ & -> & _).
    reflexivity.
Qed.

Lemma outcome_true_dec (o : outcome bool) : {o = Return true} + {o <> Return true}.
Proof. destruct o as [[|] | |]; [now left | right; discriminate ..]. Qed.

(** *** One iteration of the watch loop *)

Lemma get_server_id_pure (world : Z) (server_name : string) (cfg : ASWDConfig) :
  exists o, get_server_id consts world server_name cfg = Result o cfg [].
Proof.
  unfold get_server_id. destruct ((world <? 1) || (4 <? world)); [now eexists |].
  destruct (List.find _ _); now eexists.
Qed.

Lemma compute_player_sbn_count_pure (server_name : string) (player_count : option Z)
    (cfg : ASWDConfig) :
  exists o, compute_player_sbn_count server_name player_count cfg = Result o cfg [].
Proof.
  unfold compute_player_sbn_count, py_sub. run_m.
  match goal with
  | |- context [if ?b then _ else None] => destruct b
  end; [| now eexists].
  destruct (last_servers_info cfg !! server_name) as [lsi |]; [| now eexists].
  destruct (si_player_count lsi) as [z |]; [| now eexists].
  destruct (0 <? z); [| now eexists].
  destruct player_count; now eexists.
Qed.

Lemma compute_player_sbn_count_first (server_name : string) (player_count : option Z)
    (cfg : ASWDConfig) :
  last_servers_info cfg !! server_name = None ->
  compute_player_sbn_count server_name player_count cfg = Result (Return 0) cfg [].
Proof.
  intros H. unfold compute_player_sbn_count. run_m. rewrite H.
  now destruct (negb _ && _).
Qed.

Lemma find_enemy_players_pure (players : Players) (cfg : ASWDConfig) :
  exists o, find_enemy_players players cfg = Result o cfg [].
Proof.
  unfold find_enemy_players. run_m.
  destruct players as [[|n names] | [|k keys]]; try (now eexists).
  destruct (list_mem "data" (k :: keys)); [now eexists |].
  destruct (enemy_list cfg); now eexists.
Qed.

Lemma silent_nil : silent [].
Proof. constructor. Qed.

Lemma silent_app (l l' : list event) : silent l -> silent l' -> silent (l ++ l').
Proof. unfold silent. intros. now apply Forall_app. Qed.

Lemma silent_count (l : list event) (s : string) :
  silent l ->
  count_events (is_surge_alert_for s) l = 0%nat
  /\ count_events (is_intrusion_alert_for s) l = 0%nat
  /\ count_events (is_all_clear_for s) l = 0%nat.
Proof.
  unfold count_events. induction 1 as [|ev l Hev _ IH]; [repeat split |].
  destruct (Hev s) as (E1 & E2 & E3). cbn [List.filter].
  rewrite E1, E2, E3. exact IH.
Qed.

(** What the loop over the watched servers leaves behind: the config is
    untouched, nothing it sends is a notification, and every entry it adds
    is filed under its own name with the surge computed against the previous
    snapshot. *)
Lemma collect_servers_info_spec (e : CycleEnv) (message : Message)
    (cluster : list ClusterServer) (names : list string)
    (acc : gmap string ServerInfo) (cfg : ASWDConfig) :
  let r := collect_servers_info consts e message cluster names acc cfg in
  res_cfg r = cfg
  /\ silent (res_events r)
  /\ forall m, res_out r = Return m ->
       forall k v, m !! k = Some v ->
         acc !! k = Some v
         \/ (In k names /\ si_server_name v = k
             /\ res_out (compute_player_sbn_count k (si_player_count v) cfg)
                = Return (si_player_sbn_count v)).
Proof.
  revert acc. induction names as [|server_name rest IH]; intros acc; cbv zeta.
  - split; [reflexivity |]. split; [apply silent_nil |].
    intros m [= <-] k v Hk. now left.
  - cbn [collect_servers_info]. run_m.
    destruct (get_server_id_pure (watch_world cfg) server_name cfg) as [o ->].
    destruct o as [server_id | |]; cbn [res_out res_cfg res_events app];
      [| split; [reflexivity | split; [apply silent_nil | discriminate]] ..].
    destruct (get_object_id server_id cluster) as [csi |].
    2:{ destruct (IH acc) as (Hc & Hs & Hm). split; [exact Hc |].
        split; [exact Hs |]. intros m Ho k v Hk.
        destruct (Hm m Ho k v Hk) as [? | (? & ?)]; [now left | right].
        split; [now right | assumption]. }
    destruct (env_players e server_id) as [| | | players].
    + cbn [res_out res_cfg res_events app].
      destruct (IH acc) as (Hc & Hs & Hm). split; [exact Hc |]. split.
      * repeat (constructor; [intros s; repeat split |]). exact Hs.
      * intros m Ho k v Hk.
        destruct (Hm m Ho k v Hk) as [? | (? & ?)]; [now left | right].
        split; [now right | assumption].
    + cbn [res_out res_cfg res_events app].
      destruct (IH acc) as (Hc & Hs & Hm). split; [exact Hc |]. split.
      * repeat (constructor; [intros s; repeat split |]). exact Hs.
      * intros m Ho k v Hk.
        destruct (Hm m Ho k v Hk) as [? | (? & ?)]; [now left | right].
        split; [now right | assumption].
    + cbn [res_out res_cfg res_events app].
      split; [reflexivity | split; [apply silent_nil | discriminate]].
    + destruct (compute_player_sbn_count_pure server_name (cs_player_count csi) cfg)
        as [o Hsbn]. rewrite Hsbn.
      destruct o as [sbn | |]; cbn [res_out res_cfg res_events app];
        [| split; [reflexivity | split; [apply silent_nil | discriminate]] ..].
      destruct (find_enemy_players_pure players cfg) as [o ->].
      destruct o as [enemy_players | |]; cbn [res_out res_cfg res_events app];
        [| split; [reflexivity | split; [apply silent_nil | discriminate]] ..].
      destruct (IH (<[server_name :=
                        {| si_server_name := server_name;
                           si_player_count := cs_player_count csi;
                           si_player_sbn_count := sbn;
                           si_enemy_players := enemy_players |}]> acc))
        as (Hc & Hs & Hm).
      split; [exact Hc |]. split; [exact Hs |]. intros m Ho k v Hk.
      destruct (Hm m Ho k v Hk) as [Hacc | (? & ?)].
      * destruct (decide (server_name = k)) as [<- | Hne].
        -- rewrite lookup_insert_eq in Hacc. injection Hacc as <-. right.
           split; [now left |]. split; [reflexivity |].
           cbn [si_player_count si_player_sbn_count]. now rewrite Hsbn.
        -- rewrite lookup_insert_ne in Hacc by exact Hne. now left.
      * right. split; [now right | assumption].
Qed.

Lemma watch_body_json (e : CycleEnv) (message : Message) (cfg : ASWDConfig)
    (cluster : list ClusterServer) :
  env_cluster e = BodyJson cluster ->
  let rc := collect_servers_info consts e message cluster
              (get_watch_server_names consts (env_client e)) ∅ cfg in
  match res_out rc with
  | Return m =>
      let rn := notify_channels (env_timestr e) m
                  (get_channels consts (env_client e)) cfg in
      watch_body consts e message cfg
      = Result (Return true) (with_last_servers_info m (res_cfg rn))
          (res_events rc ++ res_events rn)
  | Raise ex => watch_body consts e message cfg = Result (Raise ex) cfg (res_events rc)
  | Pending => watch_body consts e message cfg = Result Pending cfg (res_events rc)
  end.
Proof.
  intros Hcluster rc. unfold watch_body. rewrite Hcluster.
  destruct (collect_servers_info_spec e message cluster
              (get_watch_server_names consts (env_client e)) ∅ cfg) as (Hcfg & _).
  fold rc in Hcfg.
  destruct (res_out rc) as [m | ex |] eqn:Eo;
    cbv zeta; unfold bind at 1; cbv zeta; fold rc; rewrite Eo, Hcfg;
    [| reflexivity ..].
  destruct (notify_channels_result (env_timestr e) m
              (get_channels consts (env_client e)) cfg) as [Hout _].
  run_m. rewrite Hout. cbn [res_out res_cfg res_events app].
  now rewrite !app_nil_r.
Qed.

(** An iteration whose [try] body runs to its end: the events are those of
    the fetch loop, then the notifications, then the sleep; the snapshot
    becomes the new [last_servers_info]. *)
Lemma watch_iteration_completed (e : CycleEnv) (message : Message) (cfg : ASWDConfig) :
  res_out (watch_body consts e message cfg) = Return true ->
  exists cluster m,
    env_cluster e = BodyJson cluster
    /\ let rc := collect_servers_info consts e message cluster
                   (get_watch_server_names consts (env_client e)) ∅ cfg in
       let rn := notify_channels (env_timestr e) m
                   (get_channels consts (env_client e)) cfg in
       res_out rc = Return m
       /\ watch_iteration consts e message cfg
          = Result (Return tt)
              (after_stop e (with_last_servers_info m (res_cfg rn)))
              (res_events rc ++ res_events rn ++ [EvSleep (watch_interval cfg)]).
Proof.
  intros Hdone. destruct (env_cluster e) as [| | | cluster] eqn:Hcluster.
  1-3: unfold watch_body in Hdone; rewrite Hcluster in Hdone; discriminate Hdone.
  pose proof (watch_body_json e message cfg cluster Hcluster) as Hbody.
  cbv zeta in Hbody. exists cluster.
  destruct (res_out (collect_servers_info consts e message cluster
                       (get_watch_server_names consts (env_client e)) ∅ cfg))
    as [m | ex |] eqn:Eo; [| rewrite Hbody in Hdone; discriminate Hdone ..].
  exists m. split; [reflexivity |]. cbv zeta. split; [exact Eo |].
  unfold watch_iteration. unfold bind at 1, try_except. rewrite Hbody.
  cbn [res_out res_cfg res_events].
  destruct (notify_channels_result (env_timestr e) m
              (get_channels consts (env_client e)) cfg) as [_ Hs].
  destruct Hs as (_ & _ & Hi & _).
  run_m. cbn [watch_interval with_last_servers_info]. rewrite Hi.
  unfold after_stop. destruct (env_stop e); cbn [res_out res_cfg res_events app];
    now rewrite <- ?app_assoc, ?app_nil_r.
Qed.

(** One iteration in terms of what its [try] body did. *)
Lemma watch_iteration_of_body (e : CycleEnv) (message : Message) (cfg : ASWDConfig) :
  let rb := watch_body consts e message cfg in
  watch_iteration consts e message cfg
  = match res_out rb with
    | Return true =>
        Result (Return tt) (after_stop e (res_cfg rb))
          (res_events rb ++ [EvSleep (watch_interval (res_cfg rb))])
    | Return false =>
        Result (Return tt) (after_stop e (res_cfg rb)) (res_events rb)
    | Raise _ =>
        Result (Return tt) (after_stop e (res_cfg rb))
          (res_events rb
           ++ [EvLogTraceback; EvSend (channel message) msg_continuing;
               EvSleep (watch_interval (res_cfg rb))])
    | Pending => Result Pending (res_cfg rb) (res_events rb)
    end.
Proof.
  cbv zeta. unfold watch_iteration, after_stop. run_m.
  generalize (watch_body consts e message cfg). intros [o c evs].
  destruct o as [[|] | ex |]; cbn [res_out res_cfg res_events app];
    destruct (env_stop e); cbn [res_out res_cfg res_events app];
    rewrite <- ?app_assoc, ?app_nil_r; reflexivity.
Qed.

Lemma watch_body_no_json (e : CycleEnv) (message : Message) (cfg : ASWDConfig) :
  (forall cluster, env_cluster e <> BodyJson cluster) ->
  let rb := watch_body consts e message cfg in
  res_out rb <> Return true /\ res_cfg rb = cfg /\ silent (res_events rb).
Proof.
  intros Hno. unfold watch_body.
  destruct (env_cluster e) as [| | | cluster]; [.. | now contradiction (Hno cluster)].
  - split; [discriminate |]. split; [reflexivity |].
    repeat (constructor; [intros s; repeat split |]). constructor.
  - split; [discriminate |]. split; [reflexivity |].
    repeat (constructor; [intros s; repeat split |]). constructor.
  - split; [discriminate |]. split; [reflexivity |]. constructor.
Qed.

Lemma silent_continuing (message : Message) (n : Z) :
  silent [EvLogTraceback; EvSend (channel message) msg_continuing; EvSleep n].
Proof. repeat (constructor; [intros s; repeat split |]). constructor. Qed.

(** An iteration whose [try] body does not run to its end sends no
    notification and keeps the snapshot and the notice list. *)
Lemma watch_iteration_not_completed (e : CycleEnv) (message : Message)
    (cfg : ASWDConfig) :
  res_out (watch_body consts e message cfg) <> Return true ->
  let r := watch_iteration consts e message cfg in
  silent (res_events r)
  /\ last_servers_info (res_cfg r) = last_servers_info cfg
  /\ enemy_notice_server_names (res_cfg r) = enemy_notice_server_names cfg.
Proof.
  intros Hnot r. subst r.
  assert (Hbody : res_cfg (watch_body consts e message cfg) = cfg
                  /\ silent (res_events (watch_body consts e message cfg))).
  { destruct (env_cluster e) as [| | | cluster] eqn:Hcluster.
    1-3: apply watch_body_no_json; intros cluster; rewrite Hcluster; discriminate.
    pose proof (watch_body_json e message cfg cluster Hcluster) as Hbody.
    cbv zeta in Hbody.
    destruct (collect_servers_info_spec e message cluster
                (get_watch_server_names consts (env_client e)) ∅ cfg)
      as (_ & Hsilent & _).
    destruct (res_out (collect_servers_info consts e message cluster
                         (get_watch_server_names consts (env_client e)) ∅ cfg))
      as [m | ex |] eqn:Eo; rewrite Hbody in Hnot |- *;
      [now contradiction Hnot | now split ..]. }
  destruct Hbody as [Hcfg Hsilent].
  rewrite (watch_iteration_of_body e message cfg). cbv zeta.
  assert (Hafter : forall c, last_servers_info (after_stop e c) = last_servers_info c
                             /\ enemy_notice_server_names (after_stop e c)
                                = enemy_notice_server_names c)
    by (intros c; unfold after_stop; now destruct (env_stop e)).
  destruct (res_out (watch_body consts e message cfg)) as [[|] | ex |];
    [now contradiction Hnot | ..]; cbn [res_cfg res_events];
    rewrite ?Hcfg; (split; [| try apply Hafter; now split]).
  - exact Hsilent.
  - apply silent_app; [exact Hsilent | apply silent_continuing].
  - exact Hsilent.
Qed.

Lemma occurrences_zero (s : string) (l : list string) :
  occurrences s l = 0%nat <-> ~ In s l.
Proof.
  unfold occurrences. induction l as [|x l IH]; [cbn; tauto |].
  cbn [List.filter In]. destruct (String.eqb_spec s x) as [-> | Hne].
  - cbn [length]. split; [discriminate | intros H; exfalso; apply H; now left].
  - rewrite IH. split; [intros H [E | E]; [congruence | auto] | auto].
Qed.

Lemma has_channel_watched (client : Client) (s : string) :
  In s (get_watch_server_names consts client) ->
  has_channel s (get_channels consts client) = true.
Proof.
  unfold get_watch_server_names, has_channel. intros H.
  apply list_elem_of_In in H. rewrite elem_of_remove_dups in H.
  apply list_elem_of_In in H.
  apply in_map_iff in H as (ch & <- & Hch).
  apply existsb_exists. exists ch. split; [exact Hch | apply String.eqb_refl].
Qed.

(** A completed iteration, seen from one server that is in its snapshot. *)
Lemma completed_cycle (e : CycleEnv) (message : Message) (cfg : ASWDConfig)
    (s : string) (si : ServerInfo) :
  res_out (watch_body consts e message cfg) = Return true ->
  last_servers_info (res_cfg (watch_iteration consts e message cfg)) !! s = Some si ->
  exists (m : gmap string ServerInfo) (fetched : list event),
    let rn := notify_channels (env_timestr e) m
                (get_channels consts (env_client e)) cfg in
    keyed m /\ m !! s = Some si
    /\ has_channel s (get_channels consts (env_client e)) = true
    /\ silent fetched
    /\ res_out (compute_player_sbn_count s (si_player_count si) cfg)
       = Return (si_player_sbn_count si)
    /\ res_events (watch_iteration consts e message cfg)
       = fetched ++ res_events rn ++ [EvSleep (watch_interval cfg)]
    /\ enemy_notice_server_names (res_cfg (watch_iteration consts e message cfg))
       = enemy_notice_server_names (res_cfg rn).
Proof.
  intros Hdone Hsnap.
  destruct (watch_iteration_completed e message cfg Hdone)
    as (cluster & m & Hcluster & Hm & Hiter).
  destruct (collect_servers_info_spec e message cluster
              (get_watch_server_names consts (env_client e)) ∅ cfg)
    as (_ & Hsilent & Hentries).
  specialize (Hentries m Hm).
  rewrite Hiter in Hsnap |- *. cbn [res_cfg res_events] in Hsnap |- *.
  assert (Hlast : forall c, last_servers_info (after_stop e (with_last_servers_info m c)) = m)
    by (intros c; unfold after_stop; now destruct (env_stop e)).
  assert (Hnote : forall c, enemy_notice_server_names
                              (after_stop e (with_last_servers_info m c))
                            = enemy_notice_server_names c)
    by (intros c; unfold after_stop; now destruct (env_stop e)).
  rewrite Hlast in Hsnap. rewrite Hnote.
  exists m. eexists. cbv zeta. split.
  { intros k v Hk. destruct (Hentries k v Hk) as [Hempty | (_ & Hname & _)];
      [now rewrite lookup_empty in Hempty | exact Hname]. }
  split; [exact Hsnap |].
  destruct (Hentries s si Hsnap) as [Hempty | (Hin & _ & Hsbn)];
    [now rewrite lookup_empty in Hempty |].
  split; [now apply has_channel_watched |].
  split; [exact Hsilent |]. split; [exact Hsbn |]. split; reflexivity.
Qed.

Lemma count_events_cycle (p : string -> event -> bool) (s : string)
    (fetched notified : list event) (n : Z) :
  count_events (p s) fetched = 0%nat ->
  p s (EvSleep n) = false ->
  count_events (p s) (fetched ++ notified ++ [EvSleep n]) = count_events (p s) notified.
Proof.
  intros Hf Hs. rewrite !count_events_app, Hf, count_events_single, Hs. lia.
Qed.

(** C1, as amended.  After one iteration of the watch loop, a server that
    had no entry in the previous snapshot has the surge 0 in the new
    snapshot, and no surge alert is sent to its reporting channels in that
    iteration when the threshold is positive. *)
Theorem first_snapshot_surge (e : CycleEnv) (message : Message) (cfg : ASWDConfig)
    (s : string) :
  last_servers_info cfg !! s = None ->
  let r := watch_iteration consts e message cfg in
  (forall si, last_servers_info (res_cfg r) !! s = Some si ->
              si_player_sbn_count si = 0)
  /\ (0 < player_sbn_count cfg ->
      count_events (is_surge_alert_for s) (res_events r) = 0%nat).
Proof.
  intros Hprior r.
  destruct (outcome_true_dec (res_out (watch_body consts e message cfg)))
    as [Hdone | Hnot].
  - split.
    + intros si Hsnap.
      destruct (completed_cycle e message cfg s si Hdone Hsnap)
        as (m & fetched & _ & _ & _ & _ & Hsbn & _).
      rewrite (compute_player_sbn_count_first _ _ _ Hprior) in Hsbn.
      now injection Hsbn.
    + intros Hpos.
      destruct (watch_iteration_completed e message cfg Hdone)
        as (cluster & m & Hcluster & Hm & Hiter).
      destruct (collect_servers_info_spec e message cluster
                  (get_watch_server_names consts (env_client e)) ∅ cfg)
        as (_ & Hsilent & Hentries).
      specialize (Hentries m Hm).
      subst r. rewrite Hiter. cbn [res_events].
      rewrite count_events_cycle;
        [| now apply silent_count | reflexivity].
      apply notify_channels_no_surge.
      * intros k v Hk. destruct (Hentries k v Hk) as [Hempty | (_ & Hname & _)];
          [now rewrite lookup_empty in Hempty | exact Hname].
      * intros si Hsi. destruct (Hentries s si Hsi) as [Hempty | (_ & _ & Hsbn)];
          [now rewrite lookup_empty in Hempty |].
        rewrite (compute_player_sbn_count_first _ _ _ Hprior) in Hsbn.
        injection Hsbn as <-. exact Hpos.
  - destruct (watch_iteration_not_completed e message cfg Hnot)
      as (Hsilent & Hlast & _).
    fold r in Hsilent, Hlast. split.
    + intros si Hsnap. rewrite Hlast, Hprior in Hsnap. discriminate.
    + intros _. now apply silent_count.
Qed.

(** /start empties the snapshot and the notice list before the first
    iteration of the loop. *)
Lemma start_resets (envs : list CycleEnv) (message : Message) (args : string)
    (cfg : ASWDConfig) :
  execute_cmd (StartCommand consts envs) message args cfg
  = let cfg0 := with_enemy_notice_server_names []
                  (with_last_servers_info ∅ (with_is_watch_started true cfg)) in
    let r := watch_loop consts envs message cfg0 in
    Result (res_out r) (res_cfg r)
      (EvSend (channel message) (Py.Lit "監視開始.") :: res_events r).
Proof.
  cbn [execute_cmd StartCommand].
  unfold bind, send_message, emit, modify. cbn [res_out res_cfg res_events app].
  reflexivity.
Qed.

Lemma watch_loop_step (e : CycleEnv) (envs : list CycleEnv) (message : Message)
    (cfg : ASWDConfig) :
  is_watch_started cfg = true ->
  watch_loop consts (e :: envs) message cfg
  = bind (watch_iteration consts e message)
      (fun _ => watch_loop consts envs message) cfg.
Proof.
  intros Hstarted. cbn [watch_loop]. unfold bind at 1, gets.
  cbn [res_out res_cfg res_events app]. rewrite Hstarted.
  now destruct (bind _ _ cfg).
Qed.

(** A completed iteration in which server [s] has no enemy leaves [s] off
    the notice list, if it was on it at most once. *)
Lemma no_enemy_cycle_clears (e : CycleEnv) (message : Message) (cfg : ASWDConfig)
    (s : string) (si : ServerInfo) :
  res_out (watch_body consts e message cfg) = Return true ->
  last_servers_info (res_cfg (watch_iteration consts e message cfg)) !! s = Some si ->
  length (si_enemy_players si) = 0%nat ->
  (occurrences s (enemy_notice_server_names cfg) <= 1)%nat ->
  ~ In s (enemy_notice_server_names (res_cfg (watch_iteration consts e message cfg))).
Proof.
  intros Hdone Hsnap Hnone Hk.
  destruct (completed_cycle e message cfg s si Hdone Hsnap)
    as (m & fetched & K & M & C & _ & _ & _ & O).
  destruct (notify_channels_no_enemy (env_timestr e) m
              (get_channels consts (env_client e)) cfg s si K M Hnone Hk)
    as (Ho & _ & _).
  rewrite C in Ho. apply occurrences_zero. now rewrite O.
Qed.


(** C4.  Take three consecutive iterations of the watch loop that all run
    to their end, with server [s] in each snapshot and 0, then 2, then 0
    enemy matches, [s] not being on the notice list at the start (as after
    /start, or after any iteration in which [s] had no enemy).  Then the
    reporting channels of [s] get, over the three iterations, exactly one
    intrusion alert and exactly one all-clear: the alert in the second
    iteration, which puts [s] on the notice list, and the all-clear in the
    third, which takes it off. *)
Theorem edge_triggered_notice (e1 e2 e3 : CycleEnv) (message : Message)
    (cfg : ASWDConfig) (s : string) (i1 i2 i3 : ServerInfo) :
  let r1 := watch_iteration consts e1 message cfg in
  let r2 := watch_iteration consts e2 message (res_cfg r1) in
  let r3 := watch_iteration consts e3 message (res_cfg r2) in
  ~ In s (enemy_notice_server_names cfg) ->
  res_out (watch_body consts e1 message cfg) = Return true ->
  res_out (watch_body consts e2 message (res_cfg r1)) = Return true ->
  res_out (watch_body consts e3 message (res_cfg r2)) = Return true ->
  last_servers_info (res_cfg r1) !! s = Some i1 ->
  length (si_enemy_players i1) = 0%nat ->
  last_servers_info (res_cfg r2) !! s = Some i2 ->
  length (si_enemy_players i2) = 2%nat ->
  last_servers_info (res_cfg r3) !! s = Some i3 ->
  length (si_enemy_players i3) = 0%nat ->
  let events := res_events r1 ++ res_events r2 ++ res_events r3 in
  count_events (is_intrusion_alert_for s) events = 1%nat
  /\ count_events (is_all_clear_for s) events = 1%nat
  /\ count_events (is_intrusion_alert_for s) (res_events r2) = 1%nat
  /\ In s (enemy_notice_server_names (res_cfg r2))
  /\ count_events (is_all_clear_for s) (res_events r3) = 1%nat
  /\ ~ In s (enemy_notice_server_names (res_cfg r3)).
Proof.
  intros r1 r2 r3 Hstart H1 H2 H3 S1 N1 S2 N2 S3 N3 events.
  apply occurrences_zero in Hstart.
  destruct (completed_cycle e1 message cfg s i1 H1 S1)
    as (m1 & f1 & K1 & M1 & C1 & Q1 & _ & E1 & O1).
  destruct (completed_cycle e2 message (res_cfg r1) s i2 H2 S2)
    as (m2 & f2 & K2 & M2 & C2 & Q2 & _ & E2 & O2).
  destruct (completed_cycle e3 message (res_cfg r2) s i3 H3 S3)
    as (m3 & f3 & K3 & M3 & C3 & Q3 & _ & E3 & O3).
  fold r1 in E1, O1. fold r2 in E2, O2. fold r3 in E3, O3. cbv zeta in *.
  destruct (silent_count f1 s Q1) as (_ & F1i & F1c).
  destruct (silent_count f2 s Q2) as (_ & F2i & F2c).
  destruct (silent_count f3 s Q3) as (_ & F3i & F3c).
  (* first iteration: no enemy, not noticed *)
  destruct (notify_channels_no_enemy (env_timestr e1) m1
              (get_channels consts (env_client e1)) cfg s i1 K1 M1 N1)
    as (A1o & A1i & A1c); [lia |].
  rewrite C1 in A1o, A1c. rewrite Hstart in A1c. rewrite <- O1 in A1o.
  (* second iteration: two enemies, not noticed *)
  destruct (notify_channels_enemies (env_timestr e2) m2
              (get_channels consts (env_client e2)) (res_cfg r1) s i2 K2 M2)
    as (A2o & A2i & A2c); [lia |].
  fold r1 in A1o. rewrite C2, A1o in A2o, A2i. cbn [Nat.eqb andb] in A2o, A2i.
  rewrite <- O2 in A2o.
  (* third iteration: no enemy, noticed once *)
  destruct (notify_channels_no_enemy (env_timestr e3) m3
              (get_channels consts (env_client e3)) (res_cfg r2) s i3 K3 M3 N3)
    as (A3o & A3i & A3c); [lia |].
  fold r2 in A2o. rewrite C3 in A3o, A3c. rewrite A2o in A3c. rewrite <- O3 in A3o.
  assert (I1 : count_events (is_intrusion_alert_for s) (res_events r1) = 0%nat)
    by (rewrite E1, count_events_cycle; auto).
  assert (I2 : count_events (is_intrusion_alert_for s) (res_events r2) = 1%nat)
    by (rewrite E2, count_events_cycle; auto).
  assert (I3 : count_events (is_intrusion_alert_for s) (res_events r3) = 0%nat)
    by (rewrite E3, count_events_cycle; auto).
  assert (L1 : count_events (is_all_clear_for s) (res_events r1) = 0%nat)
    by (rewrite E1, count_events_cycle; auto).
  assert (L2 : count_events (is_all_clear_for s) (res_events r2) = 0%nat)
    by (rewrite E2, count_events_cycle; auto).
  assert (L3 : count_events (is_all_clear_for s) (res_events r3) = 1%nat)
    by (rewrite E3, count_events_cycle; auto).
  subst events. rewrite !count_events_app, I1, I2, I3, L1, L2, L3.
  split; [reflexivity |]. split; [reflexivity |]. split; [reflexivity |].
  split.
  - destruct (In_dec String.string_dec s (enemy_notice_server_names (res_cfg r2)))
      as [Hin | Hout]; [exact Hin |].
    apply occurrences_zero in Hout. congruence.
  - split; [reflexivity |]. now apply occurrences_zero.
Qed.


End Properties.

(** ** The properties on concrete inputs *)

Example python_strings :
  Py.upper "Bcd" = "BCD"
  /\ Py.find (Py.upper "abcde") (Py.upper "Bcd") = 1
  /\ Py.find "abcde" "Bcd" = -1
  /\ Py.strip "  a b  " = "a b"
  /\ Py.int " -1_0 " = Some (-10)
  /\ Py.int "abc" = None
  /\ Py.strip (String "1" (String "028" EmptyString)) = "1"
  /\ Py.int (String "1" (String "028" EmptyString)) = None
  /\ Py.isdecimal "abc" = false
  /\ Py.split_space "a  b" = ["a"; EmptyString; "b"]
  /\ Py.join ", " ["a"; "b"; "c"] = "a, b, c".
Proof. repeat split. Qed.


(** C1: with no previous snapshot the surge in the new snapshot is 0, not
    -1; and a threshold of 0, which the config file may hold since only the
    setter clamps, lets the surge alert through. *)
Lemma surge_without_snapshot_is_zero :
  let cfg := with_player_sbn_count 0 fresh_config in
  let r := watch_iteration grid_consts (sample_cycle ["abcde"]) (say "/start") cfg in
  last_servers_info cfg !! "A1" = None
  /\ last_servers_info (res_cfg r) !! "A1" = Some (a1_info 0 [])
  /\ si_player_sbn_count (a1_info 0 []) <> -1
  /\ count_events (is_surge_alert_for "A1") (res_events r) = 1%nat.
Proof.
  cbv zeta. split; [vm_compute; reflexivity |].
  split; [vm_compute; reflexivity |].
  split; [discriminate | vm_compute; reflexivity].
Qed.

Lemma first_snapshot_surge_witness :
  let r := watch_iteration grid_consts (sample_cycle ["abcde"]) (say "/start")
             fresh_config in
  last_servers_info fresh_config !! "A1" = None
  /\ (forall si, last_servers_info (res_cfg r) !! "A1" = Some si ->
                 si_player_sbn_count si = 0)
  /\ count_events (is_surge_alert_for "A1") (res_events r) = 0%nat.
Proof.
  cbv zeta. split; [vm_compute; reflexivity |].
  destruct (first_snapshot_surge grid_consts (sample_cycle ["abcde"])
              (say "/start") fresh_config "A1") as [Hsnap Hquiet];
    [vm_compute; reflexivity |].
  split; [exact Hsnap | apply Hquiet; reflexivity].
Defined.

(** C2: the label is the company, "Acme", not the entry name "Bcd". *)
Lemma enemy_label_is_company :
  let cfg := res_cfg (add_enemy "Bcd" "Acme" fresh_config) in
  find_enemy_players (PlayerArray ["abcde"]) cfg
  = Result (Return ["abcde(Acme)"]) cfg []
  /\ res_out (find_enemy_players (PlayerArray ["abcde"]) cfg)
     <> Return ["abcde(Bcd)"].
Proof. cbv zeta. split; [vm_compute; reflexivity | vm_compute; discriminate]. Qed.

Lemma enemy_match_label_witness :
  let cfg := res_cfg (add_enemy "Bcd" "Acme" fresh_config) in
  exists found,
    find_enemy_players (PlayerArray ["abcde"]) cfg = Result (Return found) cfg []
    /\ In "abcde(Acme)" found
    /\ (enemy_list fresh_config = [] -> ["abcde"] = ["abcde"] ->
        found = ["abcde(Acme)"]).
Proof.
  apply (enemy_match_label fresh_config "Bcd" "Acme" "abcde" ["abcde"]).
  - reflexivity.
  - discriminate.
  - vm_compute. discriminate.
  - now left.
Defined.


Lemma edge_triggered_notice_witness :
  let r1 := watch_iteration grid_consts (sample_cycle ["zed"]) (say "/start")
              watching_config in
  let r2 := watch_iteration grid_consts (sample_cycle ["abcde"; "xBCDx"]) (say "/start")
              (res_cfg r1) in
  let r3 := watch_iteration grid_consts (sample_cycle ["zed"]) (say "/start")
              (res_cfg r2) in
  let events := res_events r1 ++ res_events r2 ++ res_events r3 in
  count_events (is_intrusion_alert_for "A1") events = 1%nat
  /\ count_events (is_all_clear_for "A1") events = 1%nat
  /\ count_events (is_intrusion_alert_for "A1") (res_events r2) = 1%nat
  /\ In "A1" (enemy_notice_server_names (res_cfg r2))
  /\ count_events (is_all_clear_for "A1") (res_events r3) = 1%nat
  /\ ~ In "A1" (enemy_notice_server_names (res_cfg r3)).
Proof.
  apply (edge_triggered_notice grid_consts (sample_cycle ["zed"])
           (sample_cycle ["abcde"; "xBCDx"]) (sample_cycle ["zed"]) (say "/start")
           watching_config "A1"
           (a1_info 0 []) (a1_info 0 ["abcde(Acme)"; "xBCDx(Acme)"]) (a1_info 0 []));
    try (vm_compute; reflexivity).
  intros [].
Defined.

(** C4: a server that is on the notice list when the three iterations
    begin, here after an iteration with a match, gets an all-clear in the
    first of them as well: 0, then 2, then 0 matches give one intrusion alert
    and two all-clears. *)
Lemma noticed_server_gets_two_all_clears :
  let r0 := watch_iteration grid_consts (sample_cycle ["abcde"]) (say "/start")
              watching_config in
  let r1 := watch_iteration grid_consts (sample_cycle ["zed"]) (say "/start")
              (res_cfg r0) in
  let r2 := watch_iteration grid_consts (sample_cycle ["abcde"; "xBCDx"]) (say "/start")
              (res_cfg r1) in
  let r3 := watch_iteration grid_consts (sample_cycle ["zed"]) (say "/start")
              (res_cfg r2) in
  let events := res_events r1 ++ res_events r2 ++ res_events r3 in
  enemy_notice_server_names (res_cfg r0) = ["A1"]
  /\ (res_out (watch_body grid_consts (sample_cycle ["zed"]) (say "/start") (res_cfg r0))
      = Return true
      /\ res_out (watch_body grid_consts (sample_cycle ["abcde"; "xBCDx"]) (say "/start")
                    (res_cfg r1))
         = Return true
      /\ res_out (watch_body grid_consts (sample_cycle ["zed"]) (say "/start") (res_cfg r2))
         = Return true)
  /\ (last_servers_info (res_cfg r1) !! "A1" = Some (a1_info 0 [])
      /\ last_servers_info (res_cfg r2) !! "A1"
         = Some (a1_info 0 ["abcde(Acme)"; "xBCDx(Acme)"])
      /\ last_servers_info (res_cfg r3) !! "A1" = Some (a1_info 0 []))
  /\ count_events (is_intrusion_alert_for "A1") events = 1%nat
  /\ count_events (is_all_clear_for "A1") events = 2%nat.
Proof. cbv zeta. repeat split; vm_compute; reflexivity. Qed.

Lemma help_short_circuit_witness :
  In StopCommand (cmd_list grid_consts [])
  /\ manager_execute grid_consts [] (say "/stop /?") fresh_config
     = Result (Return (Some false)) fresh_config
         [EvSend cmd_channel (Py.Lit (usage StopCommand))].
Proof.
  assert (H : In StopCommand (cmd_list grid_consts [])) by (right; left; reflexivity).
  split; [exact H |].
  exact (help_short_circuit grid_consts [] StopCommand cmd_channel sample_server
           fresh_config H).
Defined.

(** C6: the help form of a command without arguments has trailing
    characters after the token, and is answered with the usage text alone,
    not with the failure line. *)
Lemma help_form_is_not_a_failure :
  has_args StopCommand = false
  /\ content (say "/stop /?") = cmd StopCommand +:+ " /?"
  /\ res_events (execute StopCommand (say "/stop /?") fresh_config)
     = [EvSend cmd_channel (Py.Lit (usage StopCommand))]
  /\ res_events (execute StopCommand (say "/stop /?") fresh_config)
     <> [EvSend cmd_channel (Py.Lit (msg_invalid +:+ Py.nl +:+ usage StopCommand))].
Proof.
  split; [reflexivity |]. split; [reflexivity |].
  split; [vm_compute; reflexivity | vm_compute; discriminate].
Qed.

Lemma structural_validation_witness :
  (is_valid StopCommand (say "/stop now") = false
   /\ execute StopCommand (say "/stop now") fresh_config
      = Result (Return (Some false)) fresh_config
          [EvSend cmd_channel (Py.Lit (msg_invalid +:+ Py.nl +:+ usage StopCommand))])
  /\ is_valid AddEnemyCommand (say "/add enemy Bcd") = true.
Proof.
  destruct (structural_validation StopCommand (say "/stop now") fresh_config)
    as [Hno _].
  destruct (Hno eq_refl " now") as (Hvalid & Hfail & _);
    [discriminate | reflexivity |].
  destruct (structural_validation AddEnemyCommand (say "/add enemy Bcd") fresh_config)
    as [_ Hargs].
  split; [split; [exact Hvalid | apply Hfail; discriminate] |].
  apply (Hargs eq_refl). exists "Bcd". split; [discriminate | reflexivity].
Defined.

Lemma enemy_round_trip_witness :
  let r1 := add_enemy "X" "Y" fresh_config in
  let r2 := del_enemy "X" (res_cfg r1) in
  dict_mem "X" (enemy_list fresh_config) = false
  /\ In "X(Y)" (list_enemy_items (res_cfg r1))
  /\ Py.find (list_enemy (res_cfg r1)) "X(Y)" <> -1
  /\ res_out r1 = Return true
  /\ res_out r2 = Return true
  /\ ~ In "X(Y)" (list_enemy_items (res_cfg r2))
  /\ del_enemy "X" fresh_config = Result (Return false) fresh_config []
  /\ add_enemy "X" "Z" (res_cfg r1) = Result (Return false) (res_cfg r1) [].
Proof.
  cbv zeta. split; [reflexivity |].
  destruct (enemy_round_trip fresh_config "X" "Y" eq_refl eq_refl)
    as ((Hitem & Hfind) & (_ & _ & Hgone) & Hplain & Habsent & Hagain).
  destruct (Hplain eq_refl eq_refl eq_refl) as (Hadd & _ & Hdel & _).
  split; [exact Hitem |]. split; [exact Hfind |]. split; [exact Hadd |].
  split; [exact Hdel |].
  split; [apply Hgone; reflexivity |]. split; [exact Habsent | apply Hagain].
Defined.

Lemma split_args_quoted_pair_witness :
  split_args (Py.dq +:+ "player name" +:+ Py.dq +:+ " "
              +:+ Py.dq +:+ "company name" +:+ Py.dq)
  = Some ["player name"; "company name"].
Proof.
  apply (split_args_quoted_pair "player name" "company name");
    [reflexivity | reflexivity | discriminate].
Defined.

Lemma set_player_count_accepts_non_numbers_witness :
  valid_custom SetPlayerSbnCountCommand (say "/set player_count abc") "abc" fresh_config
  = Result (Return None) fresh_config []
  /\ manager_execute grid_consts [] (say "/set player_count abc") fresh_config
     = Result (Raise Py.ValueError) fresh_config []
  /\ manager_execute grid_consts [] (say "/set world abc") fresh_config
     = Result (Return (Some false)) fresh_config
         [EvSend cmd_channel
            (Py.Lit (msg_world_range +:+ Py.nl
                     +:+ usage (SetWatchWorldCommand grid_consts)))]
  /\ manager_execute grid_consts [] (say "/set interval abc") fresh_config
     = Result (Return (Some false)) fresh_config
         [EvSend cmd_channel
            (Py.Lit (msg_interval_number +:+ Py.nl +:+ usage SetWatchIntervalCommand))].
Proof.
  destruct (set_player_count_accepts_non_numbers grid_consts [] cmd_channel
              sample_server "abc" fresh_config) as (Hpass & Hraise & Hreject);
    [discriminate | discriminate |].
  split; [exact Hpass |]. split; [apply Hraise; reflexivity |].
  apply Hreject; reflexivity.
Defined.



(** /start on a config whose notice list is stale, followed by three
    iterations with 0, 2 and 0 enemy matches on A1: one intrusion alert and
    one all-clear; the loop is still running when the recorded answers
    end. *)
Example start_then_three_cycles :
  let stale := with_enemy_notice_server_names ["A1"] watching_config in
  let r := manager_execute grid_consts
             [sample_cycle ["zed"]; sample_cycle ["abcde"; "xBCDx"]; sample_cycle ["zed"]]
             (say "/start") stale in
  res_out r = Pending
  /\ count_events (is_intrusion_alert_for "A1") (res_events r) = 1%nat
  /\ count_events (is_all_clear_for "A1") (res_events r) = 1%nat
  /\ enemy_notice_server_names (res_cfg r) = [].
Proof. cbv zeta. repeat split; vm_compute; reflexivity. Qed.

(** * Further properties of the code *)

Section MoreProperties.

Context (consts : Consts).

(** ** Further properties of the dispatcher *)

Lemma prefix_comparable (p q s : string) :
  String.prefix p s = true -> String.prefix q s = true ->
  String.prefix p q = true \/ String.prefix q p = true.
Proof.
  revert p q. induction s as [|a s IH]; intros p q Hp Hq.
  - destruct p; [left; apply prefix_empty | discriminate Hp].
  - destruct p as [|b p]; [left; apply prefix_empty |].
    destruct q as [|c q]; [right; apply prefix_empty |].
    rewrite prefix_cons in Hp, Hq.
    apply andb_true_iff in Hp as [Hb Hp]. apply andb_true_iff in Hq as [Hc Hq].
    apply Ascii.eqb_eq in Hb, Hc. subst b c.
    rewrite !prefix_cons, Ascii.eqb_refl. cbn [andb]. now apply IH.
Qed.

(** No token of a registered command begins another one. *)
Lemma called_commands_coincide (envs : list CycleEnv) (line : string)
    (c1 c2 : Command) :
  In c1 (cmd_list consts envs) ->
  In c2 (cmd_list consts envs) ->
  is_call c1 line = true ->
  is_call c2 line = true ->
  c1 = c2.
Proof.
  intros H1 H2 Hc1 Hc2. unfold is_call, Py.startswith in Hc1, Hc2.
  pose proof (prefix_comparable _ _ _ Hc1 Hc2) as Hcmp. clear Hc1 Hc2.
  unfold cmd_list, base_cmd_list in H1, H2. cbn [app In] in H1, H2.
  repeat (destruct H1 as [<- | H1]);
    try (destruct H1);
    repeat (destruct H2 as [<- | H2]);
    try (destruct H2);
    try reflexivity;
    (exfalso; destruct Hcmp as [Hcmp | Hcmp]; vm_compute in Hcmp; discriminate Hcmp).
Qed.

Lemma prefix_trans (p q s : string) :
  String.prefix p q = true -> String.prefix q s = true -> String.prefix p s = true.
Proof.
  intros Hpq Hqs. apply prefix_inv in Hpq as [r ->]. apply prefix_inv in Hqs as [r' ->].
  rewrite app_assoc_s. apply prefix_app.
Qed.

Lemma registered_token_has_slash (envs : list CycleEnv) (c : Command) :
  In c (cmd_list consts envs) -> String.prefix "/" (cmd c) = true.
Proof.
  intros Hc. unfold cmd_list, base_cmd_list in Hc. cbn [app In] in Hc.
  repeat (destruct Hc as [<- | Hc]); try (destruct Hc); reflexivity.
Qed.

(** X1.  The order of the command table never decides which command runs:
    no token of a registered command begins another one, so a line that
    starts with the token of a registered command is handed to that command,
    wherever it stands in the table. *)
Theorem dispatch_is_unambiguous (envs : list CycleEnv) (message : Message)
    (c : Command) (cfg : ASWDConfig) :
  In c (cmd_list consts envs) ->
  is_call c (content message) = true ->
  List.find (fun c' => is_call c' (content message)) (cmd_list consts envs) = Some c
  /\ manager_execute consts envs message cfg = execute c message cfg.
Proof.
  intros Hc Hcall.
  assert (Hfind : List.find (fun c' => is_call c' (content message))
                            (cmd_list consts envs) = Some c).
  { destruct (List.find _ _) as [c' |] eqn:Hfind.
    - apply find_some in Hfind as [Hc' Hcall'].
      f_equal. exact (called_commands_coincide envs _ c' c Hc' Hc Hcall' Hcall).
    - apply (find_none _ _ Hfind) in Hc. cbv beta in Hc. congruence. }
  split; [exact Hfind |].
  unfold manager_execute. rewrite Hfind.
  replace (Py.startswith (content message) "/") with true; [reflexivity |].
  symmetry. exact (prefix_trans _ _ _ (registered_token_has_slash envs c Hc) Hcall).
Qed.

(** The validation hook of every registered command only reads. *)
Lemma registered_valid_custom_pure (envs : list CycleEnv) (c : Command)
    (message : Message) (args : string) (cfg : ASWDConfig) :
  In c (cmd_list consts envs) ->
  exists o, valid_custom c message args cfg = Result o cfg [].
Proof.
  intros Hc. unfold cmd_list, base_cmd_list in Hc. cbn [app In] in Hc.
  repeat (destruct Hc as [<- | Hc]); try (destruct Hc);
    cbn [valid_custom StartCommand StopCommand AddEnemyCommand DelEnemyCommand
         ListEnemyCommand AddBlackListCommand DelBlackListCommand
         ListBlackListCommand AddServerCommand DelServerCommand StatusCommand
         SetWatchWorldCommand SetWatchIntervalCommand SetPlayerSbnCountCommand
         FuckYeahCommand help_cmd HelpCommand];
    unfold valid_custom_default, add_enemy_valid_custom, del_enemy_valid_custom,
      py_int;
    try (now eexists).
  - unfold bind, gets, ret. cbn [res_out res_cfg res_events app].
    destruct (is_watch_started cfg); now eexists.
  - destruct (is_empty_string args); now eexists.
  - destruct (is_empty_string args); [now eexists |].
    unfold bind, gets, ret. cbn [res_out res_cfg res_events app].
    destruct (negb (dict_mem args (enemy_list cfg))); now eexists.
  - destruct (is_empty_string args); now eexists.
  - destruct (is_empty_string args); [now eexists |].
    unfold bind, gets, ret. cbn [res_out res_cfg res_events app].
    destruct (negb (dict_mem args (enemy_list cfg))); now eexists.
  - destruct (_ || _); [now eexists |].
    destruct (exists_channel (server message) args); now eexists.
  - destruct (_ || _); [now eexists |].
    destruct (negb (exists_channel (server message) args)); now eexists.
  - destruct (_ || _); [now eexists |].
    destruct (Py.int args) as [v |]; [| now eexists].
    unfold bind, ret. cbn [res_out res_cfg res_events app].
    destruct ((v <? 1) || (4 <? v)); now eexists.
  - destruct (_ || _); now eexists.
  - destruct (is_empty_string args); now eexists.
Qed.

(** Binding after a step that only reads. *)
Lemma bind_pure {A B : Type} (m : M A) (k : A -> M B) (c : ASWDConfig) (o : outcome A) :
  m c = Result o c [] ->
  bind m k c = match o with
               | Return a => k a c
               | Raise e => Result (Raise e) c []
               | Pending => Result Pending c []
               end.
Proof.
  intros H. unfold bind. rewrite H. cbn [res_out res_cfg res_events app].
  destruct o; [now destruct (k a c) | reflexivity ..].
Qed.

Lemma find_In {A : Type} (f : A -> bool) (l : list A) (x : A) :
  List.find f l = Some x -> In x l /\ f x = true.
Proof. apply find_some. Qed.

(** X2.  Whenever the dispatcher answers [False] - a line that is no
    command, an unknown command, a help form, a malformed line or a line its
    command refuses - the config object is what it was, and at most one
    message has gone out, to the channel of the line; nothing else has
    happened. *)
Theorem refusal_changes_nothing (envs : list CycleEnv) (message : Message)
    (cfg : ASWDConfig) :
  res_out (manager_execute consts envs message cfg) = Return (Some false) ->
  res_cfg (manager_execute consts envs message cfg) = cfg
  /\ (res_events (manager_execute consts envs message cfg) = []
      \/ exists text,
           res_events (manager_execute consts envs message cfg)
           = [EvSend (channel message) (Py.Lit text)]).
Proof.
  unfold manager_execute.
  destruct (negb (Py.startswith (content message) "/")); [intros _; now split; [| left] |].
  destruct (List.find _ _) as [c |] eqn:Hfind.
  2:{ intros _. split; [reflexivity | right; now eexists]. }
  apply find_In in Hfind as [Hc _].
  unfold execute.
  destruct (is_cmd_help c (content message));
    [intros _; split; [reflexivity | right; now eexists] |].
  destruct (negb (is_valid c message));
    [intros _; split; [reflexivity | right; now eexists] |].
  destruct (registered_valid_custom_pure envs c message
              (slice_from (String.length (cmd c) + 1) (content message)) cfg Hc)
    as [o Ho].
  rewrite (bind_pure _ _ _ _ Ho).
  destruct o as [[[|a m] |] | ex |];
    try (intros H; exfalso; revert H; unfold bind;
         destruct (res_out (execute_cmd c message _ cfg)); discriminate);
    try discriminate.
  intros _. split; [reflexivity | right; now eexists].
Qed.

(** ** Further properties of the watch loop *)

Lemma collect_servers_info_not_pending (e : CycleEnv) (message : Message)
    (cluster : list ClusterServer) (names : list string)
    (acc : gmap string ServerInfo) (cfg : ASWDConfig) :
  res_out (collect_servers_info consts e message cluster names acc cfg) <> Pending.
Proof.
  revert acc. induction names as [|server_name rest IH]; intros acc.
  - discriminate.
  - cbn [collect_servers_info]. run_m.
    destruct (get_server_id_pure consts (watch_world cfg) server_name cfg) as [o Ho].
    assert (Hid : o <> Pending).
    { intros ->. revert Ho. unfold get_server_id.
      destruct (_ || _); [discriminate |]. destruct (List.find _ _); discriminate. }
    rewrite Ho. destruct o as [server_id | |]; cbn [res_out res_cfg res_events app];
      [| discriminate | contradiction].
    destruct (get_object_id server_id cluster) as [csi |]; [| apply IH].
    destruct (env_players e server_id) as [| | | players];
      cbn [res_out res_cfg res_events app]; [apply IH | apply IH | discriminate |].
    destruct (compute_player_sbn_count_pure server_name (cs_player_count csi) cfg)
      as [o Hsbn].
    assert (Hs : o <> Pending).
    { intros ->. revert Hsbn. unfold compute_player_sbn_count, py_sub. run_m.
      match goal with
      | |- context [if ?b then _ else None] => destruct b
      end; [| discriminate].
      destruct (last_servers_info cfg !! server_name) as [lsi |]; [| discriminate].
      destruct (si_player_count lsi) as [z |]; [| discriminate].
      destruct (0 <? z); [| discriminate]. destruct (cs_player_count csi); discriminate. }
    rewrite Hsbn. destruct o as [sbn | |]; cbn [res_out res_cfg res_events app];
      [| discriminate | contradiction].
    destruct (find_enemy_players_pure players cfg) as [o Hfound].
    assert (Hf : o <> Pending).
    { intros ->. revert Hfound. unfold find_enemy_players. run_m.
      destruct players as [[|n names] | [|k keys]]; try discriminate.
      destruct (list_mem "data" (k :: keys)); [discriminate |].
      destruct (enemy_list cfg); discriminate. }
    rewrite Hfound. destruct o as [found | |]; cbn [res_out res_cfg res_events app];
      [apply IH | discriminate | contradiction].
Qed.

Lemma watch_body_outcome (e : CycleEnv) (message : Message) (cfg : ASWDConfig) :
  let rb := watch_body consts e message cfg in
  res_out rb <> Pending
  /\ persisted (res_cfg rb) = persisted cfg
  /\ is_watch_started (res_cfg rb) = is_watch_started cfg.
Proof.
  destruct (env_cluster e) as [| | | cluster] eqn:Hcluster.
  1-3: unfold watch_body; rewrite Hcluster; repeat split; discriminate.
  pose proof (watch_body_json consts e message cfg cluster Hcluster) as Hbody.
  cbv zeta in Hbody.
  pose proof (collect_servers_info_not_pending e message cluster
                (get_watch_server_names consts (env_client e)) ∅ cfg) as Hnp.
  destruct (res_out (collect_servers_info consts e message cluster
                       (get_watch_server_names consts (env_client e)) ∅ cfg))
    as [m | ex |]; [| | contradiction]; cbv zeta; rewrite Hbody;
    cbn [res_out res_cfg]; [| repeat split; discriminate].
  destruct (notify_channels_result (env_timestr e) m
              (get_channels consts (env_client e)) cfg)
    as (_ & Ht & Hw & Hi & Hp & He & Hs & _).
  split; [discriminate |]. split; [| exact Hs].
  unfold persisted. cbn [token watch_world watch_interval player_sbn_count enemy_list
                         with_last_servers_info].
  now rewrite Ht, Hw, Hi, Hp, He.
Qed.

(** One iteration always runs to its end: an exception in its body is
    caught.  It changes none of the persisted settings, and the running flag
    only when a /stop came in. *)
Lemma watch_iteration_outcome (e : CycleEnv) (message : Message)
    (cfg : ASWDConfig) :
  let r := watch_iteration consts e message cfg in
  res_out r = Return tt
  /\ persisted (res_cfg r) = persisted cfg
  /\ is_watch_started (res_cfg r)
     = (if env_stop e then false else is_watch_started cfg).
Proof.
  cbv zeta. rewrite (watch_iteration_of_body consts e message cfg). cbv zeta.
  destruct (watch_body_outcome e message cfg) as (Hnp & Hp & Hs).
  assert (Hafter : forall c, persisted (after_stop e c) = persisted c
                   /\ is_watch_started (after_stop e c)
                      = (if env_stop e then false else is_watch_started c))
    by (intros c; unfold after_stop; now destruct (env_stop e)).
  destruct (res_out (watch_body consts e message cfg)) as [[|] | ex |];
    [| | | contradiction]; cbn [res_out res_cfg];
    destruct (Hafter (res_cfg (watch_body consts e message cfg))) as [-> ->];
    now rewrite Hp, Hs.
Qed.

Lemma watch_loop_not_started (envs : list CycleEnv) (message : Message)
    (cfg : ASWDConfig) :
  is_watch_started cfg = false ->
  watch_loop consts envs message cfg = Result (Return true) cfg [].
Proof.
  intros H. destruct envs; cbn [watch_loop]; unfold bind, gets;
    cbn [res_out res_cfg res_events app]; now rewrite H.
Qed.

Lemma watch_loop_cons (e : CycleEnv) (envs : list CycleEnv) (message : Message)
    (cfg : ASWDConfig) :
  is_watch_started cfg = true ->
  let it := watch_iteration consts e message cfg in
  let r := watch_loop consts envs message (res_cfg it) in
  watch_loop consts (e :: envs) message cfg
  = Result (res_out r) (res_cfg r) (res_events it ++ res_events r).
Proof.
  intros Hstarted it r. rewrite (watch_loop_step consts e envs message cfg Hstarted).
  destruct (watch_iteration_outcome e message cfg) as (Hout & _).
  unfold bind. fold it. fold it in Hout. rewrite Hout. reflexivity.
Qed.




(** ** Numbers in arguments *)










(** X8.  /start while the watch is on is refused: the loop is not entered
    a second time, whatever the outside world would answer, and the snapshot
    and the notice list are not reset. *)
Theorem start_while_running_is_refused (envs : list CycleEnv) (ch : Channel)
    (sv : Server) (cfg : ASWDConfig) :
  is_watch_started cfg = true ->
  manager_execute consts envs {| content := "/start"; channel := ch; server := sv |} cfg
  = Result (Return (Some false)) cfg
      [EvSend ch (Py.Lit ("監視継続します." +:+ Py.nl
                          +:+ usage (StartCommand consts envs)))].
Proof.
  intros Hstarted.
  set (message := {| content := "/start"; channel := ch; server := sv |}).
  assert (E : manager_execute consts envs message cfg
              = execute (StartCommand consts envs) message cfg).
  { subst message. find_cmd. reflexivity. }
  rewrite E. clear E.
  unfold execute.
  change (is_cmd_help (StartCommand consts envs) (content message)) with false.
  change (negb (is_valid (StartCommand consts envs) message)) with false.
  cbv iota.
  assert (Hvalid : valid_custom (StartCommand consts envs) message
                     (slice_from (String.length (cmd (StartCommand consts envs)) + 1)
                                 (content message)) cfg
                   = Result (Return (Some "監視継続します.")) cfg []).
  { cbn [valid_custom StartCommand]. unfold bind, gets. rewrite Hstarted.
    reflexivity. }
  rewrite (bind_pure _ _ _ _ Hvalid). reflexivity.
Qed.

Lemma split_space_join (s : string) :
  Py.split_space s <> [] /\ Py.join " " (Py.split_space s) = s.
Proof.
  induction s as [|c s [Hne IH]]; [split; [discriminate | reflexivity] |].
  cbn [Py.split_space].
  destruct (Ascii.eqb c " ") eqn:Hc.
  - apply Ascii.eqb_eq in Hc as ->. split; [discriminate |].
    destruct (Py.split_space s) as [|h t]; [contradiction |].
    change (Py.join " " (EmptyString :: h :: t))
      with (EmptyString +:+ " " +:+ Py.join " " (h :: t)).
    rewrite IH. reflexivity.
  - destruct (Py.split_space s) as [|h t]; [contradiction |].
    split; [discriminate |].
    destruct t as [|h' t].
    + cbn [Py.join] in *. now rewrite IH.
    + change (Py.join " " (String c h :: h' :: t))
        with (String c (h +:+ " " +:+ Py.join " " (h' :: t))).
      change (Py.join " " (h :: h' :: t))
        with (h +:+ " " +:+ Py.join " " (h' :: t)) in IH.
      now rewrite IH.
Qed.

(** X9.  [split_args] always gives a list: its [return None] cannot be
    reached, since [str.split] never gives an empty list, so that the body of
    /add enemy never comes to [len(None)].  Without a double quote the list
    is not empty and is cut at every single space: joining it with spaces
    gives the argument string back. *)
Theorem split_args_always_a_list (args : string) :
  exists l, split_args args = Some l
            /\ (Py.find args Py.dq = -1 -> l <> [] /\ Py.join " " l = args).
Proof.
  unfold split_args. destruct (split_space_join args) as [Hne Hjoin].
  destruct (0 <=? Py.find args Py.dq) eqn:Hq.
  - eexists. split; [reflexivity |]. intros Hfind. rewrite Hfind in Hq. discriminate.
  - destruct (Py.split_space args) as [|h t]; [contradiction |].
    eexists. split; [reflexivity |]. intros _. split; [discriminate | exact Hjoin].
Qed.

(** X10.  /add enemy does not look at the answer of [add_enemy]: for a name
    that is on the list already (the first item of the split argument, here
    of ASCII characters) it reports the player as added, while the list, the
    company stored for the name and the config file stay as they were. *)
Theorem add_known_enemy_reports_success (envs : list CycleEnv) (ch : Channel)
    (sv : Server) (args pname : string) (rest : list string) (cfg : ASWDConfig) :
  ascii_only args = true ->
  args <> EmptyString ->
  args <> "/?" ->
  split_args args = Some (pname :: rest) ->
  dict_mem pname (enemy_list cfg) = true ->
  manager_execute consts envs
    {| content := "/add enemy" +:+ " " +:+ args; channel := ch; server := sv |} cfg
  = Result (Return None) cfg [EvSend ch (Py.Lit "敵プレイヤーに追加しました.")].
Proof.
  intros _ Hne Hnohelp Hsplit Hmem.
  set (message := {| content := "/add enemy" +:+ " " +:+ args;
                     channel := ch; server := sv |}).
  assert (E : manager_execute consts envs message cfg
              = execute AddEnemyCommand message cfg).
  { subst message. find_cmd. reflexivity. }
  rewrite E. clear E.
  rewrite (execute_checked _ _ args) by (try reflexivity; assumption).
  assert (Hvalid : valid_custom AddEnemyCommand message args cfg
                   = Result (Return None) cfg []).
  { cbn [valid_custom AddEnemyCommand]. unfold add_enemy_valid_custom.
    destruct args; [contradiction | reflexivity]. }
  rewrite (bind_pure _ _ _ _ Hvalid).
  assert (Hadd : forall company, add_enemy pname company cfg
                                 = Result (Return false) cfg []).
  { intros company. unfold add_enemy, bind, gets.
    cbn [res_out res_cfg res_events app]. now rewrite Hmem. }
  assert (Hbody : execute_cmd AddEnemyCommand message args cfg
                  = Result (Return true) cfg
                      [EvSend ch (Py.Lit "敵プレイヤーに追加しました.")]).
  { cbn [execute_cmd AddEnemyCommand]. unfold add_enemy_execute_cmd.
    rewrite Hsplit. cbv zeta. now rewrite (bind_pure _ _ _ _ (Hadd _)). }
  unfold bind. now rewrite Hbody.
Qed.

Lemma watched_name_exists (client : Client) (name : string) :
  In name (get_watch_server_names consts client) ->
  exists_server_name consts name = true.
Proof.
  unfold get_watch_server_names, get_channels. intros H.
  apply list_elem_of_In in H. rewrite elem_of_remove_dups in H.
  apply list_elem_of_In in H.
  apply in_map_iff in H as (ch & <- & Hch).
  apply in_flat_map in Hch as (sv & _ & Hch).
  apply filter_In in Hch as [_ Hch].
  now apply andb_true_iff in Hch as [_ Hch].
Qed.

(** X11.  Every name the loop watches has an id: [get_watch_server_names]
    only keeps channel names for which [exists_server_name] holds, so with a
    watch world from 1 to 4 [get_server_id] does not raise for any of them
    and gives the id of the table entry, shifted by 225 for each world
    before. *)
Theorem watched_names_have_ids (client : Client) (world : Z) (name : string)
    (cfg : ASWDConfig) :
  1 <= world <= 4 ->
  In name (get_watch_server_names consts client) ->
  exists entry,
    In entry (SERVER_NAMES consts) /\ entry.1 = name
    /\ get_server_id consts world name cfg
       = Result (Return ((world - 1) * 225 + entry.2)) cfg [].
Proof.
  intros Hworld Hname. apply watched_name_exists in Hname.
  unfold exists_server_name in Hname. unfold get_server_id.
  replace ((world <? 1) || (4 <? world)) with false
    by (symmetry; apply orb_false_iff; split; apply Z.ltb_ge; lia).
  destruct (List.find _ _) as [entry |] eqn:Hfind.
  - apply find_some in Hfind as [Hin Heq]. apply String.eqb_eq in Heq.
    exists entry. now repeat split.
  - apply existsb_exists in Hname as (x & Hx & Heq).
    apply (find_none _ _ Hfind) in Hx. cbv beta in Hx. congruence.
Qed.




Lemma list_remove_subset (x y : string) (l : list string) :
  In y (list_remove x l) -> In y l.
Proof.
  induction l as [|z l IH]; cbn [list_remove]; [tauto |].
  destruct (String.eqb x z); cbn [In]; tauto.
Qed.

Lemma list_remove_nodup (x : string) (l : list string) :
  List.NoDup l -> List.NoDup (list_remove x l).
Proof.
  induction 1 as [|z l Hz Hl IH]; cbn [list_remove]; [constructor |].
  destruct (String.eqb x z); [exact Hl |].
  constructor; [| exact IH]. intros H. apply Hz. exact (list_remove_subset _ _ _ H).
Qed.

Lemma list_mem_In (x : string) (l : list string) : list_mem x l = true <-> In x l.
Proof.
  unfold list_mem. rewrite existsb_exists. split.
  - intros (y & Hy & Heq). apply String.eqb_eq in Heq. now subst.
  - intros H. exists x. split; [exact H | apply String.eqb_refl].
Qed.

Lemma notify_channel_nodup (timestr : string) (m : gmap string ServerInfo)
    (ch : Channel) (cfg : ASWDConfig) :
  List.NoDup (enemy_notice_server_names cfg) ->
  List.NoDup (enemy_notice_server_names (res_cfg (notify_channel timestr m ch cfg))).
Proof.
  intros Hnd. destruct (notify_channel_result timestr m ch cfg) as (_ & _ & H).
  destruct (m !! Py.upper (ch_name ch)) as [si |]; [| destruct H as [-> _]; exact Hnd].
  cbv zeta in H. destruct H as [-> _].
  assert (H1 : List.NoDup
                 (if (0 <? length (si_enemy_players si))%nat
                     && negb (list_mem (si_server_name si) (enemy_notice_server_names cfg))
                  then enemy_notice_server_names cfg ++ [si_server_name si]
                  else enemy_notice_server_names cfg)).
  { destruct (0 <? length (si_enemy_players si))%nat; cbn [andb]; [| exact Hnd].
    destruct (list_mem (si_server_name si) (enemy_notice_server_names cfg)) eqn:Hmem;
      cbn [negb]; [exact Hnd |].
    apply List.NoDup_app; [exact Hnd | repeat constructor; cbn [In]; tauto |].
    intros x Hx [<- | []]. apply list_mem_In in Hx. congruence. }
  destruct (_ && list_mem _ _); [apply list_remove_nodup |]; exact H1.
Qed.

Lemma notify_channels_nodup (timestr : string) (m : gmap string ServerInfo)
    (channels : list Channel) (cfg : ASWDConfig) :
  List.NoDup (enemy_notice_server_names cfg) ->
  List.NoDup (enemy_notice_server_names (res_cfg (notify_channels timestr m channels cfg))).
Proof.
  revert cfg. induction channels as [|ch rest IH]; intros cfg Hnd; [exact Hnd |].
  destruct (notify_channels_cons timestr m ch rest cfg) as (_ & -> & _).
  apply IH. now apply notify_channel_nodup.
Qed.

Lemma watch_iteration_nodup (e : CycleEnv) (message : Message) (cfg : ASWDConfig) :
  List.NoDup (enemy_notice_server_names cfg) ->
  List.NoDup (enemy_notice_server_names (res_cfg (watch_iteration consts e message cfg))).
Proof.
  intros Hnd.
  assert (Hb : List.NoDup (enemy_notice_server_names
                             (res_cfg (watch_body consts e message cfg)))).
  { destruct (env_cluster e) as [| | | cluster] eqn:Hcluster.
    1-3: unfold watch_body; rewrite Hcluster; exact Hnd.
    pose proof (watch_body_json consts e message cfg cluster Hcluster) as Hbody.
    cbv zeta in Hbody.
    destruct (res_out (collect_servers_info consts e message cluster
                         (get_watch_server_names consts (env_client e)) ∅ cfg))
      as [m | ex |]; rewrite Hbody; cbn [res_cfg]; try exact Hnd.
    cbn [enemy_notice_server_names with_last_servers_info].
    now apply notify_channels_nodup. }
  rewrite (watch_iteration_of_body consts e message cfg). cbv zeta.
  assert (Ha : forall c, enemy_notice_server_names (after_stop e c)
                         = enemy_notice_server_names c)
    by (intros c; unfold after_stop; now destruct (env_stop e)).
  destruct (res_out (watch_body consts e message cfg)) as [[|] | ex |];
    cbn [res_cfg]; rewrite ?Ha; exact Hb.
Qed.

(** X16.  The notice list never holds a server twice: the loop appends a
    name only after it has looked for it, so a list without repetition stays
    one through any run of the loop, and one [remove] takes a name off
    altogether. *)
Theorem notice_list_has_no_repetition (envs : list CycleEnv) (message : Message)
    (cfg : ASWDConfig) :
  List.NoDup (enemy_notice_server_names cfg) ->
  List.NoDup (enemy_notice_server_names (res_cfg (watch_loop consts envs message cfg))).
Proof.
  revert cfg. induction envs as [|e envs IH]; intros cfg Hnd.
  - cbn [watch_loop]. run_m. now destruct (is_watch_started cfg).
  - destruct (is_watch_started cfg) eqn:Hstarted.
    + pose proof (watch_loop_cons e envs message cfg Hstarted) as ->.
      cbn [res_cfg]. apply IH. now apply watch_iteration_nodup.
    + now rewrite watch_loop_not_started.
Qed.

(** Where an entry of the snapshot under construction comes from. *)
Lemma collect_servers_info_entries (e : CycleEnv) (message : Message)
    (cluster : list ClusterServer) (names : list string)
    (acc : gmap string ServerInfo) (cfg : ASWDConfig) (m : gmap string ServerInfo) :
  res_out (collect_servers_info consts e message cluster names acc cfg) = Return m ->
  forall k v, m !! k = Some v ->
    acc !! k = Some v
    \/ exists id cs players,
         In k names
         /\ get_server_id consts (watch_world cfg) k cfg = Result (Return id) cfg []
         /\ get_object_id id cluster = Some cs
         /\ env_players e id = BodyJson players
         /\ si_player_count v = cs_player_count cs
         /\ find_enemy_players players cfg
            = Result (Return (si_enemy_players v)) cfg [].
Proof.
  revert acc. induction names as [|server_name rest IH]; intros acc.
  - intros [= <-] k v Hk. now left.
  - cbn [collect_servers_info]. run_m.
    destruct (get_server_id_pure consts (watch_world cfg) server_name cfg) as [o Hid].
    rewrite Hid.
    destruct o as [server_id | |]; cbn [res_out res_cfg res_events app];
      [| discriminate ..].
    assert (Hrest : forall acc',
              res_out (collect_servers_info consts e message cluster rest acc' cfg)
              = Return m ->
              forall k v, m !! k = Some v ->
                acc' !! k = Some v
                \/ exists id cs players,
                     In k (server_name :: rest)
                     /\ get_server_id consts (watch_world cfg) k cfg
                        = Result (Return id) cfg []
                     /\ get_object_id id cluster = Some cs
                     /\ env_players e id = BodyJson players
                     /\ si_player_count v = cs_player_count cs
                     /\ find_enemy_players players cfg
                        = Result (Return (si_enemy_players v)) cfg []).
    { intros acc' Ho k v Hk.
      destruct (IH acc' Ho k v Hk) as [? | (id & cs & players & Hin & H)];
        [now left | right].
      exists id, cs, players. split; [now right | exact H]. }
    destruct (get_object_id server_id cluster) as [csi |] eqn:Hobj; [| apply Hrest].
    destruct (env_players e server_id) as [| | | players] eqn:Hplayers;
      cbn [res_out res_cfg res_events app];
      [apply Hrest | apply Hrest | discriminate |].
    destruct (compute_player_sbn_count_pure server_name (cs_player_count csi) cfg)
      as [o Hsbn]. rewrite Hsbn.
    destruct o as [sbn | |]; cbn [res_out res_cfg res_events app];
      [| discriminate ..].
    destruct (find_enemy_players_pure players cfg) as [o Hfound]. rewrite Hfound.
    destruct o as [enemy_players | |]; cbn [res_out res_cfg res_events app];
      [| discriminate ..].
    intros Ho k v Hk.
    destruct (Hrest _ Ho k v Hk) as [Hacc | H]; [| now right].
    destruct (decide (server_name = k)) as [<- | Hne].
    + rewrite lookup_insert_eq in Hacc. injection Hacc as <-. right.
      exists server_id, csi, players. cbn [si_player_count si_enemy_players].
      repeat split; try assumption. now left.
    + rewrite lookup_insert_ne in Hacc by exact Hne. now left.
Qed.

(** X17.  What a completed iteration keeps as the snapshot of a server: the
    server is one of the watched names, its id is in the cluster payload, its
    player payload was fetched and parsed, the player count is the one of
    the cluster payload and the enemies are what [find_enemy_players] gives
    for the player payload.  A server whose player fetch failed has no
    entry. *)
Theorem snapshot_comes_from_the_api (e : CycleEnv) (message : Message)
    (cfg : ASWDConfig) (k : string) (v : ServerInfo) :
  res_out (watch_body consts e message cfg) = Return true ->
  last_servers_info (res_cfg (watch_iteration consts e message cfg)) !! k = Some v ->
  exists cluster id cs players,
    env_cluster e = BodyJson cluster
    /\ In k (get_watch_server_names consts (env_client e))
    /\ get_server_id consts (watch_world cfg) k cfg = Result (Return id) cfg []
    /\ get_object_id id cluster = Some cs
    /\ env_players e id = BodyJson players
    /\ si_player_count v = cs_player_count cs
    /\ find_enemy_players players cfg = Result (Return (si_enemy_players v)) cfg [].
Proof.
  intros Hbody Hk.
  destruct (watch_iteration_completed consts e message cfg Hbody)
    as (cluster & m & Hcluster & Hm & Hit).
  rewrite Hit in Hk. cbn [res_cfg] in Hk.
  assert (Hlast : forall c, last_servers_info (after_stop e c) = last_servers_info c)
    by (intros c; unfold after_stop; now destruct (env_stop e)).
  rewrite Hlast in Hk. cbn [last_servers_info with_last_servers_info] in Hk.
  destruct (collect_servers_info_entries _ _ _ _ _ _ _ Hm k v Hk)
    as [Hempty | (id & cs & players & H)].
  - now rewrite lookup_empty in Hempty.
  - now exists cluster, id, cs, players.
Qed.

(** X18.  /add bl and /list bl are /add enemy and /list enemy under another
    name: on the same arguments they leave the same config, the same events
    and the same answer. *)
Theorem black_list_aliases (envs : list CycleEnv) (ch : Channel) (sv : Server)
    (args : string) (cfg : ASWDConfig) :
  args <> EmptyString ->
  args <> "/?" ->
  manager_execute consts envs
    {| content := "/add bl" +:+ " " +:+ args; channel := ch; server := sv |} cfg
  = manager_execute consts envs
      {| content := "/add enemy" +:+ " " +:+ args; channel := ch; server := sv |} cfg
  /\ manager_execute consts envs
       {| content := "/list bl"; channel := ch; server := sv |} cfg
     = manager_execute consts envs
         {| content := "/list enemy"; channel := ch; server := sv |} cfg.
Proof.
  intros Hne Hnohelp. split.
  - set (m1 := {| content := "/add bl" +:+ " " +:+ args; channel := ch; server := sv |}).
    set (m2 := {| content := "/add enemy" +:+ " " +:+ args; channel := ch;
                  server := sv |}).
    assert (E1 : manager_execute consts envs m1 cfg = execute AddBlackListCommand m1 cfg).
    { subst m1. find_cmd. reflexivity. }
    assert (E2 : manager_execute consts envs m2 cfg = execute AddEnemyCommand m2 cfg).
    { subst m2. find_cmd. reflexivity. }
    rewrite E1, E2.
    rewrite (execute_checked AddBlackListCommand m1 args)
      by (try reflexivity; assumption).
    rewrite (execute_checked AddEnemyCommand m2 args)
      by (try reflexivity; assumption).
    cbn [valid_custom execute_cmd AddBlackListCommand AddEnemyCommand].
    unfold add_enemy_valid_custom. destruct args; [contradiction |].
    cbn [is_empty_string]. reflexivity.
  - set (m1 := {| content := "/list bl"; channel := ch; server := sv |}).
    set (m2 := {| content := "/list enemy"; channel := ch; server := sv |}).
    assert (E1 : manager_execute consts envs m1 cfg = execute ListBlackListCommand m1 cfg).
    { subst m1. find_cmd. reflexivity. }
    assert (E2 : manager_execute consts envs m2 cfg = execute ListEnemyCommand m2 cfg).
    { subst m2. find_cmd. reflexivity. }
    rewrite E1, E2. reflexivity.
Qed.

(** ** Servers, channels and the help text *)


(** X20.  The text /? sends holds the usage text of every command of the
    dispatcher's list, its own included. *)
Theorem help_lists_every_usage (envs : list CycleEnv) (ch : Channel) (sv : Server)
    (cfg : ASWDConfig) (c : Command) :
  In c (cmd_list consts envs) ->
  exists pre post,
    manager_execute consts envs {| content := "/?"; channel := ch; server := sv |} cfg
    = Result (Return None) cfg [EvSend ch (Py.Lit (pre +:+ usage c +:+ post))].
Proof.
  intros Hc.
  set (message := {| content := "/?"; channel := ch; server := sv |}).
  assert (E : manager_execute consts envs message cfg
              = execute (help_cmd consts envs) message cfg).
  { subst message. find_cmd. reflexivity. }
  assert (E' : execute (help_cmd consts envs) message cfg
               = Result (Return None) cfg
                   [EvSend ch
                      (Py.Lit (Py.join Py.nl
                                 ((help_usage +:+ Py.nl)
                                  :: map (fun c => usage c +:+ Py.nl)
                                         (base_cmd_list consts envs))))]).
  { unfold execute.
    change (is_cmd_help (help_cmd consts envs) (content message)) with false.
    change (negb (is_valid (help_cmd consts envs) message)) with false.
    cbv iota. reflexivity. }
  rewrite E, E'. clear E E'.
  assert (Hin : In (usage c +:+ Py.nl)
                   ((help_usage +:+ Py.nl)
                    :: map (fun c => usage c +:+ Py.nl) (base_cmd_list consts envs))).
  { unfold cmd_list in Hc. apply in_app_or in Hc as [Hc | [<- | []]].
    - right. apply in_map_iff. now exists c.
    - now left. }
  destruct (join_occurs Py.nl _ _ Hin) as (pre & post & ->).
  exists pre, (Py.nl +:+ post). now rewrite app_assoc_s.
Qed.

Lemma upper_char_idempotent (c : ascii) :
  Py.upper_char (Py.upper_char c) = Py.upper_char c.
Proof. destruct c as [[] [] [] [] [] [] [] []]; reflexivity. Qed.

Lemma upper_idempotent (s : string) : Py.upper (Py.upper s) = Py.upper s.
Proof.
  induction s as [|c s IH]; [reflexivity |].
  cbn [Py.upper]. now rewrite upper_char_idempotent, IH.
Qed.

(** X21.  [find_channel] compares the upper-cased channel names with the
    name as it is given, [exists_channel] with the name upper-cased: a
    channel that [find_channel] gives is one of the server whose upper-cased
    name is the given one, and [exists_channel] then agrees; for a name
    with a lower-case letter [find_channel] finds nothing, whatever the
    channels are. *)
Theorem find_channel_wants_upper_case (sv : Server) (channel_name : string) :
  (forall ch, find_channel sv channel_name = Some ch ->
     In ch (sv_channels sv) /\ Py.upper (ch_name ch) = channel_name
     /\ exists_channel sv channel_name = true)
  /\ (Py.upper channel_name <> channel_name -> find_channel sv channel_name = None).
Proof.
  assert (H : forall ch, find_channel sv channel_name = Some ch ->
                In ch (sv_channels sv) /\ Py.upper (ch_name ch) = channel_name).
  { intros ch Hfind. apply find_some in Hfind as [Hin Heq].
    apply String.eqb_eq in Heq. now split. }
  split.
  - intros ch Hfind. destruct (H ch Hfind) as [Hin Heq]. repeat split; try assumption.
    unfold exists_channel. apply existsb_exists. exists ch. split; [exact Hin |].
    apply String.eqb_eq. rewrite <- Heq. now rewrite upper_idempotent.
  - intros Hlower. destruct (find_channel sv channel_name) as [ch |] eqn:Hfind;
      [| reflexivity].
    destruct (H ch eq_refl) as [_ Heq]. exfalso. apply Hlower.
    rewrite <- Heq. apply upper_idempotent.
Qed.

Lemma str_in_refl (a : string) : str_in a a = true.
Proof.
  unfold str_in, Py.find.
  assert (Hp : String.prefix a a = true).
  { pose proof (prefix_app a EmptyString) as Hp. now rewrite app_empty_r in Hp. }
  destruct a; cbn [Py.find_from]; now rewrite Hp.
Qed.

(** X22.  The two views of the command channels do not overlap: a server
    that [get_none_cmd_channel_servers] lists has no channel in
    [get_cmd_channels], every server gives at most one command channel, and
    so the two lists together are no longer than the list of servers. *)
Theorem cmd_channel_views (cmd_channel_name : string) (client : Client) :
  (forall sv, In sv (get_none_cmd_channel_servers cmd_channel_name client) ->
     get_cmd_channels cmd_channel_name [sv] = [])
  /\ (length (get_cmd_channels cmd_channel_name client)
      + length (get_none_cmd_channel_servers cmd_channel_name client)
      <= length client)%nat.
Proof.
  assert (H : forall sv,
            existsb (fun ch => ch_is_text ch
                               && str_in (Py.upper (ch_name ch)) cmd_channel_name)
                    (sv_channels sv) = false ->
            List.find (fun ch => ch_is_text ch
                                 && String.eqb (Py.upper (ch_name ch)) cmd_channel_name)
                      (sv_channels sv) = None).
  { intros sv Hnone.
    destruct (List.find _ _) as [ch |] eqn:Hfind; [| reflexivity].
    apply find_some in Hfind as [Hin Hch]. apply andb_true_iff in Hch as [Ht Heq].
    apply String.eqb_eq in Heq.
    assert (Hex : existsb (fun ch => ch_is_text ch
                                     && str_in (Py.upper (ch_name ch)) cmd_channel_name)
                          (sv_channels sv) = true).
    { apply existsb_exists. exists ch. split; [exact Hin |].
      rewrite Ht, Heq. apply str_in_refl. }
    congruence. }
  split.
  - intros sv Hsv. unfold get_none_cmd_channel_servers in Hsv.
    apply filter_In in Hsv as [_ Hsv]. apply negb_true_iff in Hsv.
    unfold get_cmd_channels. cbn [flat_map]. now rewrite (H sv Hsv).
  - unfold get_cmd_channels, get_none_cmd_channel_servers.
    induction client as [|sv client IH]; [reflexivity |].
    cbn [flat_map List.filter]. rewrite length_app.
    destruct (existsb _ (sv_channels sv)) eqn:Hex; cbn [negb length].
    + destruct (List.find _ (sv_channels sv)); cbn [length]; lia.
    + rewrite (H sv Hex). cbn [length]. lia.
Qed.

(** X23.  /add server refuses a server that has a channel of that name
    already, whatever the letter case of the argument and of the channel
    name and whatever the type of the channel: nothing is created. *)
Theorem add_server_twice_is_refused (envs : list CycleEnv) (ch : Channel)
    (sv : Server) (args : string) (existing : Channel) (cfg : ASWDConfig) :
  args <> EmptyString ->
  args <> "/?" ->
  exists_server_name consts (Py.upper args) = true ->
  In existing (sv_channels sv) ->
  Py.upper (ch_name existing) = Py.upper args ->
  manager_execute consts envs
    {| content := "/add server" +:+ " " +:+ args; channel := ch; server := sv |} cfg
  = Result (Return (Some false)) cfg
      [EvSend ch (Py.Lit ("対象サーバは既に監視対象です." +:+ Py.nl
                          +:+ usage (AddServerCommand consts)))].
Proof.
  intros Hne Hnohelp Hname Hin Hupper.
  set (message := {| content := "/add server" +:+ " " +:+ args;
                     channel := ch; server := sv |}).
  assert (E : manager_execute consts envs message cfg
              = execute (AddServerCommand consts) message cfg).
  { subst message. find_cmd. reflexivity. }
  rewrite E. clear E.
  rewrite (execute_checked _ _ args) by (try reflexivity; assumption).
  assert (Hchannel : exists_channel sv args = true).
  { unfold exists_channel. apply existsb_exists. exists existing.
    split; [exact Hin | now apply String.eqb_eq]. }
  assert (Hvalid : valid_custom (AddServerCommand consts) message args cfg
                   = Result (Return (Some "対象サーバは既に監視対象です.")) cfg []).
  { cbn [valid_custom AddServerCommand server message]. rewrite Hname, Hchannel.
    destruct args; [contradiction | reflexivity]. }
  rewrite (bind_pure _ _ _ _ Hvalid). reflexivity.
Qed.

End MoreProperties.

(** ** The further properties on concrete inputs *)

Lemma dispatch_is_unambiguous_witness :
  List.find (fun c' => is_call c' (content (say "/add enemy Bcd")))
            (cmd_list grid_consts [])
  = Some AddEnemyCommand
  /\ manager_execute grid_consts [] (say "/add enemy Bcd") fresh_config
     = execute AddEnemyCommand (say "/add enemy Bcd") fresh_config.
Proof.
  apply (dispatch_is_unambiguous grid_consts [] (say "/add enemy Bcd") AddEnemyCommand
           fresh_config).
  - right. right. left. reflexivity.
  - reflexivity.
Defined.

Lemma refusal_changes_nothing_witness :
  res_cfg (manager_execute grid_consts [] (say "/stop now") fresh_config) = fresh_config
  /\ (res_events (manager_execute grid_consts [] (say "/stop now") fresh_config) = []
      \/ exists text,
           res_events (manager_execute grid_consts [] (say "/stop now") fresh_config)
           = [EvSend (channel (say "/stop now")) (Py.Lit text)]).
Proof.
  apply (refusal_changes_nothing grid_consts [] (say "/stop now") fresh_config).
  vm_compute. reflexivity.
Defined.





Lemma start_while_running_is_refused_witness :
  manager_execute grid_consts [sample_cycle []] (say "/start")
    (with_is_watch_started true fresh_config)
  = Result (Return (Some false)) (with_is_watch_started true fresh_config)
      [EvSend cmd_channel
         (Py.Lit ("監視継続します." +:+ Py.nl
                  +:+ usage (StartCommand grid_consts [sample_cycle []])))].
Proof.
  apply (start_while_running_is_refused grid_consts [sample_cycle []] cmd_channel
           sample_server (with_is_watch_started true fresh_config)).
  reflexivity.
Defined.

Lemma split_args_always_a_list_witness :
  exists l, split_args "Bcd Acme Ltd" = Some l
            /\ l <> [] /\ Py.join " " l = "Bcd Acme Ltd".
Proof.
  destruct (split_args_always_a_list "Bcd Acme Ltd") as (l & Hl & H).
  exists l. split; [exact Hl | apply H; reflexivity].
Defined.

Lemma add_known_enemy_reports_success_witness :
  manager_execute grid_consts [] (say "/add enemy Bcd Other") watching_config
  = Result (Return None) watching_config
      [EvSend cmd_channel (Py.Lit "敵プレイヤーに追加しました.")].
Proof.
  apply (add_known_enemy_reports_success grid_consts [] cmd_channel sample_server
           "Bcd Other" "Bcd" ["Other"] watching_config).
  - reflexivity.
  - discriminate.
  - discriminate.
  - reflexivity.
  - reflexivity.
Defined.

Lemma watched_names_have_ids_witness :
  exists entry,
    In entry (SERVER_NAMES grid_consts) /\ entry.1 = "A1"
    /\ get_server_id grid_consts 2 "A1" fresh_config
       = Result (Return ((2 - 1) * 225 + entry.2)) fresh_config [].
Proof.
  apply (watched_names_have_ids grid_consts [sample_server] 2 "A1" fresh_config).
  - lia.
  - vm_compute. left. reflexivity.
Defined.


Lemma notice_list_has_no_repetition_witness :
  List.NoDup
    (enemy_notice_server_names
       (res_cfg (watch_loop grid_consts [sample_cycle ["abcde"]; sample_cycle ["zed"]]
                   (say "/start") (with_is_watch_started true watching_config)))).
Proof.
  apply (notice_list_has_no_repetition grid_consts
           [sample_cycle ["abcde"]; sample_cycle ["zed"]] (say "/start")
           (with_is_watch_started true watching_config)).
  apply List.NoDup_nil.
Defined.

Lemma snapshot_comes_from_the_api_witness :
  exists cluster id cs players,
    env_cluster (sample_cycle ["abcde"]) = BodyJson cluster
    /\ In "A1" (get_watch_server_names grid_consts (env_client (sample_cycle ["abcde"])))
    /\ get_server_id grid_consts (watch_world watching_config) "A1" watching_config
       = Result (Return id) watching_config []
    /\ get_object_id id cluster = Some cs
    /\ env_players (sample_cycle ["abcde"]) id = BodyJson players
    /\ si_player_count (a1_info 0 ["abcde(Acme)"]) = cs_player_count cs
    /\ find_enemy_players players watching_config
       = Result (Return (si_enemy_players (a1_info 0 ["abcde(Acme)"]))) watching_config [].
Proof.
  apply (snapshot_comes_from_the_api grid_consts (sample_cycle ["abcde"]) (say "/start")
           watching_config "A1" (a1_info 0 ["abcde(Acme)"])).
  - vm_compute. reflexivity.
  - vm_compute. reflexivity.
Defined.

Lemma black_list_aliases_witness :
  manager_execute grid_consts [] (say "/add bl Bcd Acme") fresh_config
  = manager_execute grid_consts [] (say "/add enemy Bcd Acme") fresh_config
  /\ manager_execute grid_consts [] (say "/list bl") fresh_config
     = manager_execute grid_consts [] (say "/list enemy") fresh_config.
Proof.
  apply (black_list_aliases grid_consts [] cmd_channel sample_server "Bcd Acme"
           fresh_config); discriminate.
Defined.


Lemma help_lists_every_usage_witness :
  exists pre post,
    manager_execute grid_consts [] (say "/?") fresh_config
    = Result (Return None) fresh_config
        [EvSend cmd_channel (Py.Lit (pre +:+ usage StopCommand +:+ post))].
Proof.
  apply (help_lists_every_usage grid_consts [] cmd_channel sample_server fresh_config
           StopCommand).
  right. left. reflexivity.
Defined.

Lemma find_channel_wants_upper_case_witness :
  find_channel sample_server "a1" = None
  /\ exists_channel sample_server "a1" = true.
Proof.
  split; [| reflexivity].
  apply (find_channel_wants_upper_case sample_server "a1"). discriminate.
Defined.

Lemma cmd_channel_views_witness :
  get_cmd_channels "COMMAND" [sample_server] = [].
Proof.
  apply (cmd_channel_views "COMMAND" [sample_server]). left. reflexivity.
Defined.

Lemma add_server_twice_is_refused_witness :
  manager_execute grid_consts [] (say "/add server A1") fresh_config
  = Result (Return (Some false)) fresh_config
      [EvSend cmd_channel
         (Py.Lit ("対象サーバは既に監視対象です." +:+ Py.nl
                  +:+ usage (AddServerCommand grid_consts)))].
Proof.
  apply (add_server_twice_is_refused grid_consts [] cmd_channel sample_server "A1"
           a1_channel fresh_config).
  - discriminate.
  - discriminate.
  - vm_compute. reflexivity.
  - right. left. reflexivity.
  - reflexivity.
Defined.
